(** * WeatherBot: a shallow embedding of resultv1.py and resultv2.py

    The two Python programs are Telegram bots that keep a dictionary of
    subscribers ([users]), push the weather to every subscriber on a
    schedule and answer a handful of commands.  This file embeds the
    handlers and the delivery functions of both versions as state and
    exception passing functions over an explicit model of the outside
    world (the weather endpoint, the translation service and the chat
    transport), and proves properties of them.

    Layout: Python values and strings, dictionaries, exceptions, the world
    and the program state, the monad; then [Module V1] (resultv1.py) and
    [Module V2] (resultv2.py); then the theorems. *)

From Stdlib Require Import List String Ascii ZArith NArith Bool Lia.
From Stdlib Require DecimalString.
Import ListNotations.

Set Implicit Arguments.
Set Warnings "-register-all".

(* ================================================================== *)
(** ** Python strings

    A Python [str] is modelled by the Rocq [string] of its UTF-8 bytes.
    [strip], [lower] and [capitalize] work on that encoding. *)

Module PyStr.
Local Open Scope N_scope.

Definition bytes (s : string) : list N :=
  map N_of_ascii (list_ascii_of_string s).

Definition of_bytes (l : list N) : string :=
  string_of_list_ascii (map ascii_of_N l).

Definition in_range (lo hi b : N) : bool := (lo <=? b) && (b <=? hi).

(** Code points for which [str.isspace] holds, one at the head of [l]:
    U+0009..U+000D, U+001C..U+0020, U+0085, U+00A0, U+1680,
    U+2000..U+200A, U+2028, U+2029, U+202F, U+205F, U+3000.
    Returns what follows it. *)
Definition space_prefix (l : list N) : option (list N) :=
  match l with
  | [] => None
  | b :: r =>
    if in_range 9 13 b || in_range 28 32 b then Some r
    else match r with
      | [] => None
      | c :: r1 =>
        if (b =? 194) && ((c =? 133) || (c =? 160)) then Some r1
        else match r1 with
          | [] => None
          | d :: r2 =>
            if (b =? 225) && (c =? 154) && (d =? 128) then Some r2
            else if (b =? 226) && (c =? 128)
                    && (in_range 128 138 d || (d =? 168) || (d =? 169) || (d =? 175))
                 then Some r2
            else if (b =? 226) && (c =? 129) && (d =? 159) then Some r2
            else if (b =? 227) && (c =? 128) && (d =? 128) then Some r2
            else None
          end
      end
  end.

(** The same, one whitespace code point at the end of the string; [l] is
    the reversed byte list, so its head is the last byte. *)
Definition space_suffix (l : list N) : option (list N) :=
  match l with
  | [] => None
  | b :: r =>
    if in_range 9 13 b || in_range 28 32 b then Some r
    else match r with
      | [] => None
      | c :: r1 =>
        if (c =? 194) && ((b =? 133) || (b =? 160)) then Some r1
        else match r1 with
          | [] => None
          | d :: r2 =>
            if (d =? 225) && (c =? 154) && (b =? 128) then Some r2
            else if (d =? 226) && (c =? 128)
                    && (in_range 128 138 b || (b =? 168) || (b =? 169) || (b =? 175))
                 then Some r2
            else if (d =? 226) && (c =? 129) && (b =? 159) then Some r2
            else if (d =? 227) && (c =? 128) && (b =? 128) then Some r2
            else None
          end
      end
  end.

Fixpoint drop_while (one : list N -> option (list N)) (fuel : nat) (l : list N)
  : list N :=
  match fuel with
  | O => l
  | S fuel' =>
    match one l with
    | Some r => drop_while one fuel' r
    | None => l
    end
  end.

(** [str.strip()] *)
Definition strip (s : string) : string :=
  let l := bytes s in
  let l1 := drop_while space_prefix (List.length l) l in
  of_bytes (rev (drop_while space_suffix (List.length l1) (rev l1))).

(** [str.lower()] on the letters the bot deals with: ASCII and the
    Cyrillic block U+0400..U+042F; every other code point is kept. *)
Fixpoint lower_bytes (l : list N) : list N :=
  match l with
  | [] => []
  | b :: r =>
    if in_range 65 90 b then (b + 32) :: lower_bytes r
    else match r with
      | [] => [b]
      | c :: r' =>
        if (b =? 208) && in_range 144 159 c then 208 :: (c + 32) :: lower_bytes r'
        else if (b =? 208) && in_range 160 175 c then 209 :: (c - 32) :: lower_bytes r'
        else if (b =? 208) && in_range 128 143 c then 209 :: (c + 16) :: lower_bytes r'
        else b :: lower_bytes r
      end
  end.

Definition lower (s : string) : string := of_bytes (lower_bytes (bytes s)).

(** Upper case of the first code point, on the same letters. *)
Definition upper_first (l : list N) : list N * list N :=
  match l with
  | [] => ([], [])
  | b :: r =>
    if in_range 97 122 b then ([b - 32], r)
    else if in_range 0 127 b then ([b], r)
    else match r with
      | [] => ([b], [])
      | c :: r' =>
        if (b =? 208) && in_range 176 191 c then ([208; c - 32], r')
        else if (b =? 209) && in_range 128 143 c then ([208; c + 32], r')
        else if (b =? 209) && in_range 144 159 c then ([208; c - 16], r')
        else ([b], r)
      end
  end.

(** [str.capitalize()]: first character in upper case, the rest in lower
    case. *)
Definition capitalize (s : string) : string :=
  let (h, t) := upper_first (bytes s) in
  of_bytes (h ++ lower_bytes t).

(** The first code point of a string (lead byte and its continuation
    bytes), [None] on the empty string: [s[0]]. *)
Fixpoint continuation (l : list N) : list N :=
  match l with
  | b :: r => if in_range 128 191 b then b :: continuation r else []
  | [] => []
  end.

Definition first_char (s : string) : option string :=
  match bytes s with
  | [] => None
  | b :: r => Some (of_bytes (b :: continuation r))
  end.

(** [str.startswith] is [String.prefix p s]; [p in s] is [contains]. *)
Fixpoint contains (p s : string) : bool :=
  String.prefix p s ||
  match s with
  | EmptyString => false
  | String _ s' => contains p s'
  end.

(** The text up to the first byte for which [stop] holds. *)
Fixpoint take_until (stop : list N -> bool) (l : list N) : list N :=
  match l with
  | [] => []
  | b :: r => if stop l then [] else b :: take_until stop r
  end.

(** [str(n)] for an integer. *)
Definition of_Z (z : Z) : string := DecimalString.NilEmpty.string_of_int (Z.to_int z).

(** [repr(s)] for a string.  The quote is the single one, or the double
    one when the string has a single quote and no double quote; the quote
    and the backslash are escaped, and so is every code point that is not
    printable: tab, newline and carriage return by their letter, the
    other ones below U+0020 and U+007F..U+00A0 and U+00AD as [\xhh].
    Code points above U+00FF are taken to be printable. *)
Definition hex_digit (n : N) : N := if n <? 10 then 48 + n else 87 + n.

Definition hex_escape (b : N) : list N :=
  [92; 120; hex_digit (b / 16); hex_digit (b mod 16)].

Fixpoint repr_bytes (quote : N) (l : list N) : list N :=
  match l with
  | [] => []
  | b :: r =>
    if (b =? quote) || (b =? 92) then 92 :: b :: repr_bytes quote r
    else if b =? 9 then 92 :: 116 :: repr_bytes quote r
    else if b =? 10 then 92 :: 110 :: repr_bytes quote r
    else if b =? 13 then 92 :: 114 :: repr_bytes quote r
    else if (b <? 32) || (b =? 127) then hex_escape b ++ repr_bytes quote r
    else match r with
      | [] => [b]
      | c :: r' =>
        if (b =? 194) && (in_range 128 160 c || (c =? 173))
        then hex_escape c ++ repr_bytes quote r'
        else b :: repr_bytes quote r
      end
  end.

Definition repr (s : string) : string :=
  let l := bytes s in
  let quote := if existsb (N.eqb 39) l && negb (existsb (N.eqb 34) l)
               then 34 else 39 in
  of_bytes (quote :: repr_bytes quote l ++ [quote]).
End PyStr.

Example strip_ex : PyStr.strip "  Paris
 " = "Paris"%string.
Proof. reflexivity. Qed.

Example strip_nbsp_ex : PyStr.strip " Нижний Новгород " = "Нижний Новгород"%string.
Proof. reflexivity. Qed.

Example lower_ex1 : PyStr.lower "English" = "english"%string.
Proof. reflexivity. Qed.

Example lower_ex2 : PyStr.lower "Русский" = "русский"%string.
Proof. reflexivity. Qed.

Example capitalize_ex : PyStr.capitalize "ясно, ВЕТЕР" = "Ясно, ветер"%string.
Proof. reflexivity. Qed.

Example of_Z_ex : PyStr.of_Z 60 = "60"%string /\ PyStr.of_Z (-7) = "-7"%string
                  /\ PyStr.of_Z 0 = "0"%string.
Proof. repeat split; reflexivity. Qed.

Example repr_ex :
  PyStr.repr "city not found" = "'city not found'"%string
  /\ PyStr.repr "it's" = String (ascii_of_nat 34)
                            ("it's" ++ String (ascii_of_nat 34) EmptyString)
  /\ PyStr.repr "a\b" = "'a\\b'"%string
  /\ PyStr.repr (String (ascii_of_nat 10) "Омск") = "'\nОмск'"%string.
Proof. repeat split; reflexivity. Qed.

Local Open Scope string_scope.

(* ================================================================== *)
(** ** Exceptions and results *)

(** The exception classes the two programs raise or catch.
    [WeatherServiceError] and [TranslationError] are the classes declared
    in resultv2.py; [RequestException] is [requests.exceptions.RequestException]
    (connection faults, timeouts, undecodable bodies); [ApiException] stands
    for what [bot.send_message] raises (no [except] clause of the programs
    names its class); [OtherException] is any other subclass of
    [Exception]. *)
Inductive exn_class :=
| WeatherServiceError | TranslationError | RequestException
| KeyError | IndexError | TypeError | AttributeError
| ApiException | OtherException.

(** An exception object: its class and [str(e)]. *)
Record exn := Exn { class_of : exn_class; str_of : string }.

Definition is_class (c : exn_class) (e : exn) : bool :=
  match c, class_of e with
  | WeatherServiceError, WeatherServiceError
  | TranslationError, TranslationError
  | RequestException, RequestException
  | KeyError, KeyError
  | IndexError, IndexError
  | TypeError, TypeError
  | AttributeError, AttributeError
  | ApiException, ApiException
  | OtherException, OtherException => true
  | _, _ => false
  end.

Inductive result (A : Type) :=
| Ok (a : A)
| Raise (e : exn).
Arguments Ok {A} a.
Arguments Raise {A} e.

Definition rbind {A B} (r : result A) (f : A -> result B) : result B :=
  match r with
  | Ok a => f a
  | Raise e => Raise e
  end.

Notation "x <~ r ;; k" := (rbind r (fun x => k))
  (at level 100, r at next level, right associativity).

(* ================================================================== *)
(** ** Decoded JSON values and the Python operations on them *)

(** What [response.json()] returns.  A float is identified by its Python
    [repr]. *)
Inductive json :=
| JNull
| JBool (b : bool)
| JInt (n : Z)
| JFloat (repr : string)
| JStr (s : string)
| JList (l : list json)
| JDict (d : list (string * json)).

Module Py.
Definition type_name (v : json) : string :=
  match v with
  | JNull => "NoneType" | JBool _ => "bool" | JInt _ => "int"
  | JFloat _ => "float" | JStr _ => "str" | JList _ => "list"
  | JDict _ => "dict"
  end.

(** [repr(v)] *)
Fixpoint repr (v : json) : string :=
  match v with
  | JNull => "None"
  | JBool true => "True"
  | JBool false => "False"
  | JInt n => PyStr.of_Z n
  | JFloat r => r
  | JStr s => PyStr.repr s
  | JList l => "[" ++ String.concat ", " (map repr l) ++ "]"
  | JDict d =>
    "{" ++ String.concat ", "
             (map (fun p => match p with
                            | (k, x) => PyStr.repr k ++ ": " ++ repr x
                            end) d) ++ "}"
  end.

(** [str(v)], what an f-string puts for [{v}]. *)
Definition str (v : json) : string :=
  match v with
  | JStr s => s
  | _ => repr v
  end.

Fixpoint assoc (k : string) (d : list (string * json)) : option json :=
  match d with
  | [] => None
  | (k', v) :: r => if String.eqb k k' then Some v else assoc k r
  end.

Definition no_attribute (v : json) (name : string) : exn :=
  Exn AttributeError
      ("'" ++ type_name v ++ "' object has no attribute '" ++ name ++ "'").

(** [v.get(k, default)] *)
Definition get (v : json) (k : string) (default : json) : result json :=
  match v with
  | JDict d => match assoc k d with
               | Some x => Ok x
               | None => Ok default
               end
  | _ => Raise (no_attribute v "get")
  end.

(** [v[k]] for a string key *)
Definition item (v : json) (k : string) : result json :=
  match v with
  | JDict d => match assoc k d with
               | Some x => Ok x
               | None => Raise (Exn KeyError ("'" ++ k ++ "'"))
               end
  | JList _ =>
    Raise (Exn TypeError "list indices must be integers or slices, not str")
  | JStr _ =>
    Raise (Exn TypeError "string indices must be integers, not 'str'")
  | _ => Raise (Exn TypeError ("'" ++ type_name v ++ "' object is not subscriptable"))
  end.

(** [v[0]] *)
Definition item0 (v : json) : result json :=
  match v with
  | JList (x :: _) => Ok x
  | JList [] => Raise (Exn IndexError "list index out of range")
  | JDict _ => Raise (Exn KeyError "0")
  | JStr s => match PyStr.first_char s with
              | Some c => Ok (JStr c)
              | None => Raise (Exn IndexError "string index out of range")
              end
  | _ => Raise (Exn TypeError ("'" ++ type_name v ++ "' object is not subscriptable"))
  end.

(** [v == 200] *)
Definition eq_200 (v : json) : bool :=
  match v with
  | JInt n => Z.eqb n 200
  | JFloat r => String.eqb r "200.0"
  | _ => false
  end.

(** [v.capitalize()] *)
Definition capitalize (v : json) : result string :=
  match v with
  | JStr s => Ok (PyStr.capitalize s)
  | _ => Raise (no_attribute v "capitalize")
  end.
End Py.

(* ================================================================== *)
(** ** Python dictionaries

    A [dict] keeps its keys in insertion order, and the broadcast walks
    [users] in that order, so a dictionary is an association list:
    [set] overwrites in place or appends, [del] removes the key. *)

Module Dict.
Section Ops.
Variables (K V : Type) (eqb : K -> K -> bool).

Fixpoint get (k : K) (d : list (K * V)) : option V :=
  match d with
  | [] => None
  | (k', v) :: r => if eqb k k' then Some v else get k r
  end.

(** [k in d] *)
Definition mem (k : K) (d : list (K * V)) : bool :=
  match get k d with Some _ => true | None => false end.

(** [d[k] = v] *)
Fixpoint set (k : K) (v : V) (d : list (K * V)) : list (K * V) :=
  match d with
  | [] => [(k, v)]
  | (k', v') :: r =>
    if eqb k k' then (k, v) :: r else (k', v') :: set k v r
  end.

(** [del d[k]], for a key that is in [d] (the callers test [k in d]
    first; on an absent key Python raises [KeyError]). *)
Definition del (k : K) (d : list (K * V)) : list (K * V) :=
  filter (fun p => negb (eqb k (fst p))) d.
End Ops.
End Dict.

(** A subscriber record, [{"city": ..., "language": ...}]. *)
Definition user_info := list (string * string).
(** The global [users]: chat id to record. *)
Definition users_t := list (Z * user_info).

Definition info_get := Dict.get String.eqb (V := string).
Definition info_set := Dict.set String.eqb (V := string).
Definition users_get := Dict.get Z.eqb (V := user_info).
Definition users_mem := Dict.mem Z.eqb (V := user_info).
Definition users_set := Dict.set Z.eqb (V := user_info).
Definition users_del := Dict.del Z.eqb (V := user_info).

(* ================================================================== *)
(** ** The outside world, the program state *)

(** [reply_markup] of [bot.send_message]. *)
Inductive markup :=
| ReplyKeyboardMarkup (one_time_keyboard : bool) (buttons : list string)
| ReplyKeyboardRemove.

Inductive level := INFO | ERROR.

(** What the program does to the outside, in the order it does it. *)
Inductive event :=
| Get (url : string)
| Translate (text : json) (src : option string) (dest : string)
| Send (chat_id : Z) (text : string) (reply_markup : option markup)
       (delivered : bool)
| Log (lvl : level) (text : string).

(** The functions a handler can be registered as the next step of a chat
    with [bot.register_next_step_handler]: [get_city] in resultv1.py,
    [process_city_input] and [process_language_selection] in resultv2.py. *)
Inductive callback :=
| cb_get_city
| cb_process_city_input
| cb_process_language_selection.

(** The outside world.  Every answer may depend on the moment of the call,
    which is the number of events so far.
    - [requests_get t url]: [requests.get(url).json()], the decoded body or
      the exception the call raises;
    - [translate t text src dest]: [Translator().translate(...).text];
    - [send_message t chat text]: [None] when the transport accepts the
      message, otherwise [str(e)] of the exception [bot.send_message]
      raises, an [ApiException];
    - [WEATHER_API_KEY]: the environment variable read by resultv2.py. *)
Record World := {
  WEATHER_API_KEY : string;
  requests_get : nat -> string -> result json;
  translate : nat -> json -> option string -> string -> result string;
  send_message : nat -> Z -> string -> option string
}.

(** The mutable state of a run: the global [users], the next step handlers
    kept by the bot object (chat id to the list registered for it), and the
    events so far. *)
Record state := {
  users : users_t;
  next_step : list (Z * list callback);
  trace : list event
}.

Definition next_get := Dict.get Z.eqb (V := list callback).
Definition next_set := Dict.set Z.eqb (V := list callback).
Definition next_del := Dict.del Z.eqb (V := list callback).

Definition with_users (u : users_t) (s : state) : state :=
  {| users := u; next_step := next_step s; trace := trace s |}.
Definition with_next (n : list (Z * list callback)) (s : state) : state :=
  {| users := users s; next_step := n; trace := trace s |}.
Definition record (e : event) (s : state) : state :=
  {| users := users s; next_step := next_step s; trace := trace s ++ [e] |}.

(** The moment of the next call. *)
Definition tick (s : state) : nat := List.length (trace s).

(* ================================================================== *)
(** ** The monad: state passing with exceptions

    A raised exception keeps the state reached so far, as in Python. *)

Definition M (A : Type) := state -> result A * state.

Definition ret {A} (a : A) : M A := fun s => (Ok a, s).
Definition raise {A} (e : exn) : M A := fun s => (Raise e, s).
Definition bind {A B} (m : M A) (f : A -> M B) : M B :=
  fun s => match m s with
           | (Ok a, s') => f a s'
           | (Raise e, s') => (Raise e, s')
           end.

Notation "x <- m ;; k" := (bind m (fun x => k))
  (at level 100, m at next level, right associativity).
Notation "m ;;; k" := (bind m (fun _ => k))
  (at level 100, right associativity).

(** [try: body  except Exception as e: handler e]; a handler that does not
    catch the class re-raises. *)
Definition try_except {A} (body : M A) (handler : exn -> M A) : M A :=
  fun s => match body s with
           | (Ok a, s') => (Ok a, s')
           | (Raise e, s') => handler e s'
           end.

Definition lift {A} (r : result A) : M A := fun s => (r, s).

Definition get_users : M users_t := fun s => (Ok (users s), s).
Definition put_users (u : users_t) : M unit := fun s => (Ok tt, with_users u s).

Section Actions.
Variable w : World.

(** [requests.get(url, ...)] followed by [response.json()] *)
Definition http_get_json (url : string) : M json :=
  fun s => (requests_get w (tick s) url, record (Get url) s).

(** [Translator().translate(text, src=..., dest=...).text] *)
Definition translator_translate (text : json) (src : option string)
           (dest : string) : M string :=
  fun s => (translate w (tick s) text src dest,
            record (Translate text src dest) s).

(** [bot.send_message(chat_id, text, reply_markup=...)] *)
Definition bot_send_message (chat_id : Z) (text : string)
           (reply_markup : option markup) : M unit :=
  fun s => match send_message w (tick s) chat_id text with
           | None => (Ok tt, record (Send chat_id text reply_markup true) s)
           | Some err =>
             (Raise (Exn ApiException err),
              record (Send chat_id text reply_markup false) s)
           end.
End Actions.

(** [logger.info], [logger.error] *)
Definition logger_info (text : string) : M unit :=
  fun s => (Ok tt, record (Log INFO text) s).
Definition logger_error (text : string) : M unit :=
  fun s => (Ok tt, record (Log ERROR text) s).

(** [bot.register_next_step_handler(message, f)]: [f] is appended to the
    handlers waiting for the next message of the chat. *)
Definition register_next_step_handler (chat_id : Z) (f : callback) : M unit :=
  fun s =>
    let old := match next_get chat_id (next_step s) with
               | Some l => l
               | None => []
               end in
    (Ok tt, with_next (next_set chat_id (old ++ [f]) (next_step s)) s).

(** An incoming message: the chat it comes from and its text ([None] for a
    message without text, such as a photo). *)
Record message := { chat_id_of : Z; text_of : option string }.

(** [message.text.strip()], [message.text.lower()]: on a message without
    text, [None] has no such attribute. *)
Definition text_method (name : string) (f : string -> string) (m : message)
  : result string :=
  match text_of m with
  | Some t => Ok (f t)
  | None => Raise (Py.no_attribute JNull name)
  end.

(** The conversation state of a chat, read off the next step handlers. *)
Inductive ConversationState := Idle | AwaitingCity | AwaitingLanguage.

Definition conversation_state (s : state) (chat_id : Z) : ConversationState :=
  match next_get chat_id (next_step s) with
  | Some (cb_get_city :: _) | Some (cb_process_city_input :: _) => AwaitingCity
  | Some (cb_process_language_selection :: _) => AwaitingLanguage
  | _ => Idle
  end.

(** [f"{message.text}"] *)
Definition fmt_text (m : message) : string :=
  match text_of m with
  | Some t => t
  | None => "None"
  end.

(** [user_info["city"]] *)
Definition info_item (user_info : user_info) (k : string) : result string :=
  match info_get k user_info with
  | Some v => Ok v
  | None => Raise (Exn KeyError ("'" ++ k ++ "'"))
  end.

(** [user_info.get(k, default)] *)
Definition info_get_default (user_info : user_info) (k default : string) : string :=
  match info_get k user_info with
  | Some v => v
  | None => default
  end.

Definition nl : string := String (ascii_of_nat 10) EmptyString.

(** The command of a text, as the bot library extracts it to choose a
    handler: the first word without its slash and without an [@botname]
    suffix; [None] when the text does not start with a slash. *)
Definition extract_command (text : string) : option string :=
  if String.prefix "/" text then
    let stop l := match l with
                  | 64%N :: _ => true
                  | _ => match PyStr.space_prefix l with
                         | Some _ => true
                         | None => false
                         end
                  end in
    Some (PyStr.of_bytes (PyStr.take_until stop (List.tl (PyStr.bytes text))))
  else None.

Definition command_in (m : message) (commands : list string) : bool :=
  match text_of m with
  | Some t => match extract_command t with
              | Some c => existsb (String.eqb c) commands
              | None => false
              end
  | None => false
  end.

Example extract_command_ex :
  extract_command "/now" = Some "now" /\
  extract_command "/start@weather_bot please" = Some "start" /\
  extract_command "Paris" = None.
Proof. repeat split; reflexivity. Qed.

(* ================================================================== *)
(** ** resultv1.py

    The first version: no language, no validation of the city, and no
    [try] anywhere, so whatever a call raises leaves the function. *)

Module V1.
Definition WEATHER_API_KEY : string := "API".
Definition UPDATE_INTERVAL_HOURS : Z := 1.

Section Program.
Variable w : World.

Definition weather_url (city : string) : string :=
  "http://api.openweathermap.org/data/2.5/weather?q=" ++ city
    ++ "&appid=" ++ WEATHER_API_KEY ++ "&units=metric".

Definition get_weather (city : string) : M string :=
  data <- http_get_json w (weather_url city) ;;
  cod <- lift (Py.get data "cod" JNull) ;;
  if Py.eq_200 cod then
    main <- lift (Py.item data "main") ;;
    temperature <- lift (Py.item main "temp") ;;
    weather <- lift (Py.item data "weather") ;;
    weather0 <- lift (Py.item0 weather) ;;
    description <- lift (Py.item weather0 "description") ;;
    translated_description <-
      translator_translate w description (Some "en") "ru" ;;
    ret ("Погода в городе " ++ city ++ ": " ++ Py.str temperature
           ++ "°C, " ++ translated_description)
  else
    ret "Не удалось получить погоду.".

Definition send_weather_update (chat_id : Z) (city : string) : M unit :=
  weather <- get_weather city ;;
  bot_send_message w chat_id weather None.

(** The loop walks [users.items()] itself. *)
Fixpoint for_each_user (items : users_t) : M unit :=
  match items with
  | [] => ret tt
  | (chat_id, user_info) :: rest =>
    city <- lift (info_item user_info "city") ;;
    send_weather_update chat_id city ;;;
    for_each_user rest
  end.

Definition send_updates_to_all_users : M unit :=
  items <- get_users ;;
  for_each_user items.

Definition commands_message : string :=
  "Привет! Я могу присылать тебе погоду. Вот доступные команды:" ++ nl
  ++ "/start - начать получать обновления погоды." ++ nl
  ++ "/stop - остановить обновления погоды.".

Definition start (m : message) : M unit :=
  bot_send_message w (chat_id_of m) commands_message None ;;;
  bot_send_message w (chat_id_of m) "В каком городе ты находишься?" None ;;;
  register_next_step_handler (chat_id_of m) cb_get_city.

Definition get_city (m : message) : M unit :=
  city <- lift (text_method "strip" PyStr.strip m) ;;
  bot_send_message w (chat_id_of m)
    ("Отлично! Теперь я буду присылать погоду для города " ++ city
       ++ " каждый час.") None ;;;
  u <- get_users ;;
  put_users (users_set (chat_id_of m) [("city", city)] u).

Definition stop (m : message) : M unit :=
  u <- get_users ;;
  if users_mem (chat_id_of m) u then
    put_users (users_del (chat_id_of m) u) ;;;
    bot_send_message w (chat_id_of m)
      "Вы отменили подписку на обновления погоды." None
  else
    bot_send_message w (chat_id_of m) "Вы не подписаны на обновления." None.

(** Routing, as in [V2.process_new_message]; resultv1.py has no handler
    for anything but [/start] and [/stop]. *)
Definition run_callback (f : callback) (m : message) : M unit :=
  match f with
  | cb_get_city => get_city m
  | _ => ret tt
  end.

Fixpoint run_callbacks (fs : list callback) (m : message) : M unit :=
  match fs with
  | [] => ret tt
  | f :: rest => run_callback f m ;;; run_callbacks rest m
  end.

Definition route (m : message) : M unit :=
  if command_in m ["start"] then start m
  else if command_in m ["stop"] then stop m
  else ret tt.

Definition process_new_message (m : message) : M unit :=
  fun s =>
    match next_get (chat_id_of m) (next_step s) with
    | Some (f :: fs) =>
      run_callbacks (f :: fs) m
                    (with_next (next_del (chat_id_of m) (next_step s)) s)
    | Some [] =>
      route m (with_next (next_del (chat_id_of m) (next_step s)) s)
    | None => route m s
    end.

End Program.
End V1.

(* ================================================================== *)
(** ** resultv2.py *)

Module V2.
Definition UPDATE_INTERVAL_MINUTES : Z := 60.
Definition DEFAULT_LANGUAGE : string := "ru".

Section Program.
Variable w : World.

Definition weather_url (city language : string) : string :=
  "http://api.openweathermap.org/data/2.5/weather?q=" ++ city
    ++ "&appid=" ++ WEATHER_API_KEY w ++ "&units=metric&lang=" ++ language.

(** [get_weather], from the test of [cod] to the [return]. *)
Definition read_report (city : string) (data : json) : result string :=
  cod <~ Py.get data "cod" JNull ;;
  if negb (Py.eq_200 cod) then
    error_message <~ Py.get data "message" (JStr "Unknown error") ;;
    Raise (Exn WeatherServiceError ("API error: " ++ Py.str error_message))
  else
    main <~ Py.item data "main" ;;
    temperature <~ Py.item main "temp" ;;
    weather <~ Py.item data "weather" ;;
    weather0 <~ Py.item0 weather ;;
    description <~ Py.item weather0 "description" ;;
    main' <~ Py.item data "main" ;;
    humidity <~ Py.item main' "humidity" ;;
    wind <~ Py.item data "wind" ;;
    wind_speed <~ Py.item wind "speed" ;;
    capitalized <~ Py.capitalize description ;;
    Ok ("Погода в городе " ++ city ++ ":" ++ nl
        ++ "🌡 Температура: " ++ Py.str temperature ++ "°C" ++ nl
        ++ "☁️ Состояние: " ++ capitalized ++ nl
        ++ "💧 Влажность: " ++ Py.str humidity ++ "%" ++ nl
        ++ "💨 Скорость ветра: " ++ Py.str wind_speed ++ " м/с").

(** The two [except] clauses of [get_weather]. *)
Definition get_weather_except (e : exn) : exn :=
  if is_class RequestException e then
    Exn WeatherServiceError ("Ошибка соединения: " ++ str_of e)
  else if is_class KeyError e || is_class IndexError e then
    Exn WeatherServiceError "Ошибка обработки данных погоды"
  else e.

Definition get_weather (city language : string) : M string :=
  try_except
    (data <- http_get_json w (weather_url city language) ;;
     lift (read_report city data))
    (fun e => raise (get_weather_except e)).

Definition translate_text (text dest_language : string) : M string :=
  try_except
    (translator_translate w (JStr text) None dest_language)
    (fun e => raise (Exn TranslationError ("Ошибка перевода: " ++ str_of e))).

Definition send_weather_update (chat_id : Z) (city language : string) : M unit :=
  try_except
    (weather <- get_weather city language ;;
     bot_send_message w chat_id weather None ;;;
     logger_info ("Weather update sent to " ++ PyStr.of_Z chat_id
                    ++ " for " ++ city))
    (fun e =>
       if is_class WeatherServiceError e then
         let error_msg :=
             "Не удалось получить погоду для " ++ city ++ ": " ++ str_of e in
         bot_send_message w chat_id error_msg None ;;;
         logger_error error_msg
       else
         logger_error ("Unexpected error for " ++ PyStr.of_Z chat_id
                         ++ ": " ++ str_of e)).

(** The body of the [for] loop of [send_updates_to_all_users]. *)
Definition update_one (chat_id : Z) (user_info : user_info) : M unit :=
  try_except
    (city <- lift (info_item user_info "city") ;;
     send_weather_update chat_id city
       (info_get_default user_info "language" DEFAULT_LANGUAGE))
    (fun e => logger_error ("Failed to update for " ++ PyStr.of_Z chat_id
                              ++ ": " ++ str_of e)).

Fixpoint for_each_user (items : users_t) : M unit :=
  match items with
  | [] => ret tt
  | (chat_id, user_info) :: rest =>
    update_one chat_id user_info ;;; for_each_user rest
  end.

(** The loop walks [users.copy().items()]: the keys and the order of
    [users] at that moment.  The copy is shallow, it shares the records
    with [users]; nothing writes to them while the loop runs. *)
Definition send_updates_to_all_users : M unit :=
  logger_info "Starting scheduled weather updates..." ;;;
  snapshot <- get_users ;;
  for_each_user snapshot ;;;
  logger_info "Scheduled updates completed".

Definition welcome_text : string :=
  "🌤️ Привет! Я бот погоды. Вот что я умею:" ++ nl ++ nl
  ++ "/start - начать получать обновления погоды" ++ nl
  ++ "/stop - остановить обновления" ++ nl
  ++ "/change - изменить город" ++ nl
  ++ "/now - получить текущую погоду" ++ nl
  ++ "/language - изменить язык (ru/en)" ++ nl ++ nl
  ++ "Отправь мне название города, и я начну присылать тебе погоду!".

Definition send_welcome (m : message) : M unit :=
  bot_send_message w (chat_id_of m) welcome_text None ;;;
  bot_send_message w (chat_id_of m)
    "В каком городе ты хочешь получать погоду?" None ;;;
  register_next_step_handler (chat_id_of m) cb_process_city_input.

Definition city_confirmation (city : string) : string :=
  "✅ Отлично! Теперь я буду присылать погоду для " ++ city ++ "." ++ nl
  ++ "Обновления будут приходить каждые "
  ++ PyStr.of_Z UPDATE_INTERVAL_MINUTES ++ " минут." ++ nl
  ++ "Используй /now чтобы получить текущую погоду.".

Definition city_not_found (m : message) : string :=
  "❌ Не удалось найти город '" ++ fmt_text m
    ++ "'. Пожалуйста, попробуйте еще раз.".

Definition process_city_input (m : message) : M unit :=
  try_except
    (city <- lift (text_method "strip" PyStr.strip m) ;;
     test_weather <- get_weather city DEFAULT_LANGUAGE ;;
     u <- get_users ;;
     put_users (users_set (chat_id_of m)
                          [("city", city); ("language", DEFAULT_LANGUAGE)] u) ;;;
     bot_send_message w (chat_id_of m) (city_confirmation city) None ;;;
     send_weather_update (chat_id_of m) city DEFAULT_LANGUAGE)
    (fun e =>
       if is_class WeatherServiceError e then
         bot_send_message w (chat_id_of m) (city_not_found m) None ;;;
         register_next_step_handler (chat_id_of m) cb_process_city_input
       else
         logger_error ("Error processing city input: " ++ str_of e) ;;;
         bot_send_message w (chat_id_of m)
           "⚠️ Произошла ошибка. Пожалуйста, попробуйте позже." None).

Definition stop_updates (m : message) : M unit :=
  u <- get_users ;;
  if users_mem (chat_id_of m) u then
    put_users (users_del (chat_id_of m) u) ;;;
    bot_send_message w (chat_id_of m)
      "🔴 Вы отменили подписку на обновления погоды." None
  else
    bot_send_message w (chat_id_of m)
      "ℹ️ Вы не подписаны на обновления." None.

Definition send_current_weather (m : message) : M unit :=
  u <- get_users ;;
  match users_get (chat_id_of m) u with
  | None =>
    bot_send_message w (chat_id_of m)
      "Сначала укажите город с помощью /start" None
  | Some user_info =>
    try_except
      (bot_send_message w (chat_id_of m)
         "⏳ Запрашиваю актуальную погоду..." None ;;;
       city <- lift (info_item user_info "city") ;;
       send_weather_update (chat_id_of m) city
         (info_get_default user_info "language" DEFAULT_LANGUAGE))
      (fun e =>
         logger_error ("Error in /now command: " ++ str_of e) ;;;
         bot_send_message w (chat_id_of m)
           "⚠️ Не удалось получить погоду. Попробуйте позже." None)
  end.

Definition change_city (m : message) : M unit :=
  bot_send_message w (chat_id_of m)
    "Введите новый город для получения погоды:" None ;;;
  register_next_step_handler (chat_id_of m) cb_process_city_input.

Definition change_language (m : message) : M unit :=
  bot_send_message w (chat_id_of m)
    "Выберите язык для описания погоды:"
    (Some (ReplyKeyboardMarkup true ["Русский"; "English"])) ;;;
  register_next_step_handler (chat_id_of m) cb_process_language_selection.

Definition lang_map : list (string * string) :=
  [("русский", "ru"); ("english", "en")].

Definition process_language_selection (m : message) : M unit :=
  selected <- lift (text_method "lower" PyStr.lower m) ;;
  match info_get selected lang_map with
  | None =>
    bot_send_message w (chat_id_of m)
      "❌ Неверный выбор языка. Используйте кнопки." None
  | Some lang =>
    u <- get_users ;;
    match users_get (chat_id_of m) u with
    | None =>
      put_users (users_set (chat_id_of m)
                           [("city", ""); ("language", lang)] u) ;;;
      bot_send_message w (chat_id_of m)
        "Теперь укажите город с помощью /start" None
    | Some user_info =>
      put_users (users_set (chat_id_of m)
                           (info_set "language" lang user_info) u) ;;;
      bot_send_message w (chat_id_of m)
        ("🌍 Язык изменен на " ++ fmt_text m
           ++ ". Следующее обновление будет на выбранном языке.")
        (Some ReplyKeyboardRemove)
    end
  end.

Definition handle_unknown (m : message) : M unit :=
  bot_send_message w (chat_id_of m)
    "❌ Неизвестная команда. Используйте /help для списка команд." None.

(** *** Routing of an incoming message

    The routing is the bot library's: the handlers registered for the
    next step of the chat take the message, whatever it is, and are
    forgotten; without any, the first [message_handler] whose filter
    accepts the message runs (they only see text messages). *)
Definition run_callback (f : callback) (m : message) : M unit :=
  match f with
  | cb_process_city_input => process_city_input m
  | cb_process_language_selection => process_language_selection m
  | cb_get_city => ret tt
  end.

Fixpoint run_callbacks (fs : list callback) (m : message) : M unit :=
  match fs with
  | [] => ret tt
  | f :: rest => run_callback f m ;;; run_callbacks rest m
  end.

Definition route (m : message) : M unit :=
  if command_in m ["start"; "help"] then send_welcome m
  else if command_in m ["stop"] then stop_updates m
  else if command_in m ["now"] then send_current_weather m
  else if command_in m ["change"] then change_city m
  else if command_in m ["language"] then change_language m
  else match text_of m with
       | Some _ => handle_unknown m
       | None => ret tt
       end.

Definition process_new_message (m : message) : M unit :=
  fun s =>
    match next_get (chat_id_of m) (next_step s) with
    | Some (f :: fs) =>
      run_callbacks (f :: fs) m
                    (with_next (next_del (chat_id_of m) (next_step s)) s)
    | Some [] =>
      route m (with_next (next_del (chat_id_of m) (next_step s)) s)
    | None => route m s
    end.

(** One turn of the [while True] loop of [schedule_periodic_updates]:
    [due] says whether [schedule.run_pending()] finds the job due and
    runs it.  [time.sleep] changes nothing of the state. *)
Definition scheduler_turn (due : bool) : M unit :=
  try_except
    (if due then send_updates_to_all_users else ret tt)
    (fun e => logger_error ("Scheduler error: " ++ str_of e)).

Fixpoint scheduler_turns (dues : list bool) : M unit :=
  match dues with
  | [] => ret tt
  | due :: rest => scheduler_turn due ;;; scheduler_turns rest
  end.

(** [schedule_periodic_updates], the first turns of its loop. *)
Definition schedule_periodic_updates (dues : list bool) : M unit :=
  logger_info ("Weather updates scheduled every "
                 ++ PyStr.of_Z UPDATE_INTERVAL_MINUTES ++ " minutes") ;;;
  scheduler_turns dues.
End Program.
End V2.

(* ================================================================== *)
(** ** Reading a trace *)

(** The URLs fetched, in order. *)
Definition urls (evs : list event) : list string :=
  flat_map (fun e => match e with Get u => [u] | _ => [] end) evs.

(** The chats [bot.send_message] was called for, in order, delivered or
    not: the delivery attempts. *)
Definition sent_to (evs : list event) : list Z :=
  flat_map (fun e => match e with Send c _ _ _ => [c] | _ => [] end) evs.

(** The texts the transport accepted for a chat: what its user was shown. *)
Definition shown_to (chat_id : Z) (evs : list event) : list string :=
  flat_map (fun e => match e with
                     | Send c t _ true => if Z.eqb c chat_id then [t] else []
                     | _ => []
                     end) evs.

(** The texts logged. *)
Definition logged (evs : list event) : list string :=
  flat_map (fun e => match e with Log _ t => [t] | _ => [] end) evs.

(** The calls of the translation service. *)
Definition translations (evs : list event) : list json :=
  flat_map (fun e => match e with Translate t _ _ => [t] | _ => [] end) evs.

(* ================================================================== *)
(** ** Sample worlds and states *)

Module Sample.
Definition paris : json :=
  JDict [("cod", JInt 200);
         ("main", JDict [("temp", JFloat "12.3"); ("humidity", JInt 81)]);
         ("weather", JList [JDict [("description", JStr "light rain")]]);
         ("wind", JDict [("speed", JFloat "3.6")])].

Definition not_found : json :=
  JDict [("cod", JStr "404"); ("message", JStr "city not found")].

(** Everything works: every city has weather. *)
Definition fine : World :=
  {| WEATHER_API_KEY := "k";
     requests_get := fun _ _ => Ok paris;
     translate := fun _ _ _ _ => Ok "небольшой дождь";
     send_message := fun _ _ _ => None |}.

(** The provider knows no city. *)
Definition no_city : World :=
  {| WEATHER_API_KEY := "k";
     requests_get := fun _ _ => Ok not_found;
     translate := fun _ _ _ _ => Ok "небольшой дождь";
     send_message := fun _ _ _ => None |}.

(** The provider answers with something that is not an object. *)
Definition garbled : World :=
  {| WEATHER_API_KEY := "k";
     requests_get := fun _ _ => Ok (JList []);
     translate := fun _ _ _ _ => Ok "небольшой дождь";
     send_message := fun _ _ _ => None |}.

(** The provider cannot be reached for Berlin. *)
Definition berlin_down : World :=
  {| WEATHER_API_KEY := "k";
     requests_get := fun _ url =>
       if PyStr.contains "q=Berlin&" url
       then Raise (Exn RequestException "Connection refused")
       else Ok paris;
     translate := fun _ _ _ _ => Ok "небольшой дождь";
     send_message := fun _ _ _ => None |}.

(** The provider answers an empty city name the way the real one does. *)
Definition nothing_to_geocode : json :=
  JDict [("cod", JStr "400"); ("message", JStr "Nothing to geocode")].

Definition geocoder : World :=
  {| WEATHER_API_KEY := "k";
     requests_get := fun _ url =>
       if PyStr.contains "q=&" url then Ok nothing_to_geocode else Ok paris;
     translate := fun _ _ _ _ => Ok "небольшой дождь";
     send_message := fun _ _ _ => None |}.

(** The translation service is down. *)
Definition translator_down : World :=
  {| WEATHER_API_KEY := "k";
     requests_get := fun _ _ => Ok paris;
     translate := fun _ _ _ _ => Raise (Exn OtherException "timed out");
     send_message := fun _ _ _ => None |}.


(** The transport refuses the first message of all and accepts the
    others; the provider never changes. *)
Definition transport_back : World :=
  {| WEATHER_API_KEY := "k";
     requests_get := fun _ _ => Ok paris;
     translate := fun _ _ _ _ => Ok "небольшой дождь";
     send_message := fun t _ _ =>
       if Nat.ltb t 3 then Some "Bad Gateway" else None |}.

(** The transport is down. *)
Definition transport_down : World :=
  {| WEATHER_API_KEY := "k";
     requests_get := fun _ _ => Ok paris;
     translate := fun _ _ _ _ => Ok "небольшой дождь";
     send_message := fun _ _ _ => Some "Bad Gateway" |}.

(** The weather changes between the first request and the later ones. *)
Definition warmer : json :=
  JDict [("cod", JInt 200);
         ("main", JDict [("temp", JFloat "15.0"); ("humidity", JInt 70)]);
         ("weather", JList [JDict [("description", JStr "clear sky")]]);
         ("wind", JDict [("speed", JFloat "2.1")])].

Definition warming : World :=
  {| WEATHER_API_KEY := "k";
     requests_get := fun t _ => if Nat.ltb t 1 then Ok paris else Ok warmer;
     translate := fun _ _ _ _ => Ok "ясно";
     send_message := fun _ _ _ => None |}.

(** A body with the status 200 and no weather in it. *)
Definition hollow_world : World :=
  {| WEATHER_API_KEY := "k";
     requests_get := fun _ _ => Ok (JDict [("cod", JInt 200); ("main", JNull)]);
     translate := fun _ _ _ _ => Ok "ясно";
     send_message := fun _ _ _ => None |}.

(** A message without text. *)
Definition photo (chat : Z) : message :=
  {| chat_id_of := chat; text_of := None |}.

Definition empty : state := {| users := []; next_step := []; trace := [] |}.

(** A state with the given subscribers and nothing pending. *)
Definition subscribed (u : users_t) : state :=
  {| users := u; next_step := []; trace := [] |}.

(** A chat that has been asked for its city. *)
Definition asked_city (f : callback) (chat : Z) (u : users_t) : state :=
  {| users := u; next_step := [(chat, [f])]; trace := [] |}.

Definition msg (chat : Z) (text : string) : message :=
  {| chat_id_of := chat; text_of := Some text |}.

Definition three_cities : users_t :=
  [(1%Z, [("city", "Paris")]); (2%Z, [("city", "Berlin")]);
   (3%Z, [("city", "Rome")])].

(** The same three subscribers in resultv2.py, where a record has a
    language. *)
Definition three_cities_ru : users_t :=
  [(1%Z, [("city", "Paris"); ("language", "ru")]);
   (2%Z, [("city", "Berlin"); ("language", "ru")]);
   (3%Z, [("city", "Rome"); ("language", "ru")])].

(** Feeding messages to the bot one after the other; an exception that
    leaves a handler is dropped, as the polling loop does. *)
Fixpoint feed (step : message -> M unit) (ms : list message) (s : state)
  : state :=
  match ms with
  | [] => s
  | m :: rest => feed step rest (snd (step m s))
  end.
End Sample.

(* ================================================================== *)
(** ** States, moments and stable worlds *)

(** The state after some more events. *)
Definition extend (evs : list event) (s : state) : state :=
  {| users := users s; next_step := next_step s;
     trace := (trace s ++ evs)%list |}.

(** The events of [s'] that come after those of [s]. *)
Definition since (s s' : state) : list event := skipn (tick s) (trace s').

(** The number of calls of [bot.send_message] between two states. *)
Definition delivery_attempts (s s' : state) : nat :=
  List.length (sent_to (since s s')).


(** The world with another translation service. *)
Definition with_translate
           (tr : nat -> json -> option string -> string -> result string)
           (w : World) : World :=
  {| WEATHER_API_KEY := WEATHER_API_KEY w;
     requests_get := requests_get w;
     translate := tr;
     send_message := send_message w |}.

(** The weather endpoint answers the same whenever it is asked. *)
Definition stable_provider (w : World) : Prop :=
  forall t t' url, requests_get w t url = requests_get w t' url.

(** So do the translation service and the transport. *)
Definition stable_translation (w : World) : Prop :=
  forall t t' text src dest,
    translate w t text src dest = translate w t' text src dest.

Definition stable_transport (w : World) : Prop :=
  forall t t' chat text, send_message w t chat text = send_message w t' chat text.


(* ================================================================== *)
(** ** The calls, case by case

    What a call of [get_weather] and of [send_weather_update] comes to once
    the answers of the world at that moment are known.  The lemmas
    [get_weather_eq], [send_weather_update_eq], [v1_get_weather_eq],
    [v1_send_weather_update_eq], [v1_for_each_user_eq] and
    [process_city_input_rejected] below prove that these are the functions
    of [V1] and [V2]. *)

Section Outcomes.
Variable w : World.

(** The outcome of [get_weather] when the request is made at moment [t]. *)
Definition fetch (t : nat) (city language : string) : result string :=
  match requests_get w t (V2.weather_url w city language) with
  | Ok data =>
    match V2.read_report city data with
    | Ok report => Ok report
    | Raise e => Raise (V2.get_weather_except e)
    end
  | Raise e => Raise (V2.get_weather_except e)
  end.

(** The line [send_weather_update] sends and logs for a
    [WeatherServiceError]. *)
Definition unavailable (city : string) (e : exn) : string :=
  "Не удалось получить погоду для " ++ city ++ ": " ++ str_of e.

Definition unexpected (chat_id : Z) (err : string) : string :=
  "Unexpected error for " ++ PyStr.of_Z chat_id ++ ": " ++ err.

(** [send_weather_update], case by case. *)
Definition send_weather_update_nf (chat_id : Z) (city language : string)
           (s : state) : result unit * state :=
  let s1 := record (Get (V2.weather_url w city language)) s in
  match fetch (tick s) city language with
  | Ok weather =>
    match send_message w (S (tick s)) chat_id weather with
    | None =>
      (Ok tt,
       record (Log INFO ("Weather update sent to " ++ PyStr.of_Z chat_id
                           ++ " for " ++ city))
              (record (Send chat_id weather None true) s1))
    | Some err =>
      (Ok tt,
       record (Log ERROR (unexpected chat_id err))
              (record (Send chat_id weather None false) s1))
    end
  | Raise e =>
    if is_class WeatherServiceError e then
      match send_message w (S (tick s)) chat_id (unavailable city e) with
      | None =>
        (Ok tt,
         record (Log ERROR (unavailable city e))
                (record (Send chat_id (unavailable city e) None true) s1))
      | Some err =>
        (Raise (Exn ApiException err),
         record (Send chat_id (unavailable city e) None false) s1)
      end
    else
      (Ok tt, record (Log ERROR (unexpected chat_id (str_of e))) s1)
  end.

Definition language_of (info : user_info) : string :=
  info_get_default info "language" V2.DEFAULT_LANGUAGE.

(** The request the broadcast makes for a subscriber. *)
Definition fetch_of (p : Z * user_info) : list string :=
  match info_get "city" (snd p) with
  | Some city => [V2.weather_url w city (language_of (snd p))]
  | None => []
  end.

(** Does [send_weather_update] call [bot.send_message] after this outcome
    of the fetch?  It does unless the fetch raised something that is not a
    [WeatherServiceError]. *)
Definition answers (r : result string) : bool :=
  match r with
  | Ok _ => true
  | Raise e => is_class WeatherServiceError e
  end.

(** The chats the broadcast calls [bot.send_message] for, when the
    provider is stable. *)
Definition attempt_of (p : Z * user_info) : list Z :=
  match info_get "city" (snd p) with
  | Some city =>
    if answers (fetch 0 city (language_of (snd p))) then [fst p] else []
  | None => []
  end.

Definition started : event := Log INFO "Starting scheduled weather updates...".
Definition completed : event := Log INFO "Scheduled updates completed".


Definition city_url (t : string) : string :=
  V2.weather_url w (PyStr.strip t) V2.DEFAULT_LANGUAGE.

(** The first answer to [/now]. *)
Definition please_wait : string := "⏳ Запрашиваю актуальную погоду...".

Definition apology : string :=
  "⚠️ Произошла ошибка. Пожалуйста, попробуйте позже.".

(** [process_city_input] when the validating [get_weather] raises [e]. *)
Definition rejected_city_nf (m : message) (t : string) (e : exn) (s : state)
  : result unit * state :=
  let s1 := record (Get (city_url t)) s in
  if is_class WeatherServiceError e then
    match send_message w (S (tick s)) (chat_id_of m) (V2.city_not_found m) with
    | None =>
      register_next_step_handler (chat_id_of m) cb_process_city_input
        (record (Send (chat_id_of m) (V2.city_not_found m) None true) s1)
    | Some err =>
      (Raise (Exn ApiException err),
       record (Send (chat_id_of m) (V2.city_not_found m) None false) s1)
    end
  else
    bot_send_message w (chat_id_of m) apology None
      (record (Log ERROR ("Error processing city input: " ++ str_of e)) s1).


Definition failure_text : string := "Не удалось получить погоду.".

(** What [get_weather] reads in the body: the temperature and the
    description when [cod] is 200, nothing otherwise. *)
Definition v1_read (data : json) : result (option (json * json)) :=
  cod <~ Py.get data "cod" JNull ;;
  if Py.eq_200 cod then
    main <~ Py.item data "main" ;;
    temperature <~ Py.item main "temp" ;;
    weather <~ Py.item data "weather" ;;
    weather0 <~ Py.item0 weather ;;
    description <~ Py.item weather0 "description" ;;
    Ok (Some (temperature, description))
  else Ok None.

(** [V1.get_weather] called at moment [t]: its outcome and its events. *)
Definition v1_fetch (t : nat) (city : string) : result string * list event :=
  let url := V1.weather_url city in
  match requests_get w t url with
  | Raise e => (Raise e, [Get url])
  | Ok data =>
    match v1_read data with
    | Raise e => (Raise e, [Get url])
    | Ok None => (Ok failure_text, [Get url])
    | Ok (Some (temperature, description)) =>
      (match translate w (S t) description (Some "en") "ru" with
       | Ok translated =>
         Ok ("Погода в городе " ++ city ++ ": " ++ Py.str temperature
               ++ "°C, " ++ translated)
       | Raise e => Raise e
       end,
       [Get url; Translate description (Some "en") "ru"])
    end
  end.

(** [V1.send_weather_update] called at moment [t]. *)
Definition v1_update (t : nat) (chat : Z) (city : string)
  : result unit * list event :=
  match v1_fetch t city with
  | (Ok weather, evs) =>
    match send_message w (t + List.length evs) chat weather with
    | None => (Ok tt, evs ++ [Send chat weather None true])%list
    | Some err =>
      (Raise (Exn ApiException err), evs ++ [Send chat weather None false])%list
    end
  | (Raise e, evs) => (Raise e, evs)
  end.

(** The loop, from moment [t]: it stops at the first call that raises. *)
Fixpoint v1_loop (t : nat) (items : users_t) : result unit * list event :=
  match items with
  | [] => (Ok tt, [])
  | (chat, info) :: rest =>
    match info_get "city" info with
    | None => (Raise (Exn KeyError "'city'"), [])
    | Some city =>
      match v1_update t chat city with
      | (Ok _, evs) =>
        let (r, evs') := v1_loop (t + List.length evs) rest in
        (r, (evs ++ evs')%list)
      | (Raise e, evs) => (Raise e, evs)
      end
    end
  end.

End Outcomes.

(* ================================================================== *)
(** ** Shapes of the store, subsequences *)

(** [l] is [l'] with some elements left out. *)
Inductive subseq {A : Type} : list A -> list A -> Prop :=
| subseq_nil : subseq [] []
| subseq_skip x l l' : subseq l l' -> subseq l (x :: l')
| subseq_take x l l' : subseq l l' -> subseq (x :: l) (x :: l').

(** The records resultv2.py writes: a city and one of the two languages. *)
Definition record_ok (info : user_info) : Prop :=
  exists city lang,
    info = [("city", city); ("language", lang)] /\ (lang = "ru" \/ lang = "en").

(** The records resultv1.py writes. *)
Definition record_ok_v1 (info : user_info) : Prop :=
  exists city, info = [("city", city)].

(** A store: no chat twice, every record of the given shape. *)
Definition store_ok (ok : user_info -> Prop) (u : users_t) : Prop :=
  NoDup (map fst u) /\ Forall (fun p => ok (snd p)) u.

(** How many times a broadcast of resultv2.py was started. *)
Definition broadcasts (evs : list event) : nat :=
  List.length
    (filter (fun e => match e with
                      | Log INFO t =>
                        String.eqb t "Starting scheduled weather updates..."
                      | _ => false
                      end) evs).

(** The answers of [process_language_selection]. *)
Definition wrong_choice : string :=
  "❌ Неверный выбор языка. Используйте кнопки.".

Definition language_changed (m : message) : string :=
  "🌍 Язык изменен на " ++ fmt_text m
    ++ ". Следующее обновление будет на выбранном языке.".

(** A computation that only adds events to the trace. *)
Definition grows {A : Type} (h : M A) : Prop :=
  forall s, exists evs, trace (snd (h s)) = (trace s ++ evs)%list.

(** A computation whose first action is a [bot.send_message] to the chat. *)
Definition answered (chat_id : Z) (h : M unit) : Prop :=
  forall s, exists text reply_markup delivered rest,
      trace (snd (h s))
      = (trace s ++ Send chat_id text reply_markup delivered :: rest)%list.

(** A computation that keeps the shape [ok] of the store. *)
Definition keeps (ok : user_info -> Prop) (h : M unit) : Prop :=
  forall s, store_ok ok (users s) -> store_ok ok (users (snd (h s))).

(** The moment at which a broadcast started in [s] takes the turn of the
    subscriber that comes after [before] in [users]: the start is logged and
    the subscribers of [before] have had their turns. *)
Definition turn_moment (w : World) (s : state) (before : users_t) : nat :=
  tick (snd (V2.for_each_user w before (record started s))).

Unset Implicit Arguments.

(* ================================================================== *)
(** * Properties *)

(** ** States and traces *)

Lemma tick_record e s : tick (record e s) = S (tick s).
Proof. unfold tick, record; simpl. rewrite length_app; simpl; lia. Qed.

Lemma record_extend e s : record e s = extend [e] s.
Proof. reflexivity. Qed.

Lemma extend_extend a b s : extend a (extend b s) = extend (b ++ a) s.
Proof. unfold extend; simpl. now rewrite app_assoc. Qed.

Lemma extend_nil s : extend [] s = s.
Proof. destruct s; unfold extend; simpl. now rewrite app_nil_r. Qed.

Lemma tick_extend evs s : tick (extend evs s) = (tick s + List.length evs)%nat.
Proof. unfold tick, extend; simpl. now rewrite length_app. Qed.

Lemma since_extend evs s : since s (extend evs s) = evs.
Proof.
  unfold since, tick, extend; simpl.
  rewrite skipn_app, skipn_all, Nat.sub_diag. reflexivity.
Qed.

Lemma with_users_extend u evs s :
  with_users u (extend evs s) = extend evs (with_users u s).
Proof. reflexivity. Qed.

Lemma with_next_extend n evs s :
  with_next n (extend evs s) = extend evs (with_next n s).
Proof. reflexivity. Qed.

Lemma since_with_users u evs s : since s (with_users u (extend evs s)) = evs.
Proof. apply (since_extend evs s). Qed.

Lemma since_with_next n evs s : since s (with_next n (extend evs s)) = evs.
Proof. apply (since_extend evs s). Qed.

Ltac norm :=
  repeat (rewrite record_extend || rewrite extend_extend
          || rewrite with_users_extend || rewrite with_next_extend);
  simpl app.

Lemma urls_app a b : urls (a ++ b)%list = (urls a ++ urls b)%list.
Proof. apply flat_map_app. Qed.

Lemma sent_to_app a b : sent_to (a ++ b)%list = (sent_to a ++ sent_to b)%list.
Proof. apply flat_map_app. Qed.

(** ** Dictionaries *)

Section DictFacts.
Variables (K V : Type) (eqb : K -> K -> bool).
Hypothesis eqb_spec : forall a b, reflect (a = b) (eqb a b).

Lemma dict_get_set_same k (v : V) d :
  Dict.get eqb k (Dict.set eqb k v d) = Some v.
Proof.
  induction d as [|[k' v'] d IH]; simpl.
  - destruct (eqb_spec k k); congruence.
  - destruct (eqb_spec k k'); simpl.
    + destruct (eqb_spec k k); congruence.
    + destruct (eqb_spec k k'); congruence.
Qed.

Lemma dict_get_set_other k k' (v : V) d :
  k <> k' -> Dict.get eqb k' (Dict.set eqb k v d) = Dict.get eqb k' d.
Proof.
  intros N. induction d as [|[k0 v0] d IH]; simpl.
  - destruct (eqb_spec k' k); congruence.
  - destruct (eqb_spec k k0); simpl.
    + subst k0. destruct (eqb_spec k' k); congruence.
    + destruct (eqb k' k0); auto.
Qed.

Lemma dict_get_del_same k (d : list (K * V)) :
  Dict.get eqb k (Dict.del eqb k d) = None.
Proof.
  unfold Dict.del.
  induction d as [|[k' v'] d IH]; simpl; auto.
  destruct (eqb_spec k k'); simpl; auto.
  destruct (eqb_spec k k'); congruence.
Qed.

Lemma dict_get_del_other k k' (d : list (K * V)) :
  k <> k' -> Dict.get eqb k' (Dict.del eqb k d) = Dict.get eqb k' d.
Proof.
  unfold Dict.del.
  intros N. induction d as [|[k0 v0] d IH]; simpl; auto.
  destruct (eqb_spec k k0); simpl.
  - subst k0. destruct (eqb_spec k' k); congruence.
  - destruct (eqb k' k0); auto.
Qed.

(** Removing a key that is not there changes nothing. *)
Lemma dict_del_absent k (d : list (K * V)) :
  Dict.get eqb k d = None -> Dict.del eqb k d = d.
Proof.
  unfold Dict.del.
  induction d as [|[k' v'] d IH]; simpl; auto.
  destruct (eqb_spec k k'); simpl; [discriminate|].
  intros E. now rewrite IH.
Qed.
End DictFacts.

Lemma users_get_set_same k v d : users_get k (users_set k v d) = Some v.
Proof. apply dict_get_set_same, Z.eqb_spec. Qed.

Lemma users_get_set_other k k' v d :
  k <> k' -> users_get k' (users_set k v d) = users_get k' d.
Proof. apply dict_get_set_other, Z.eqb_spec. Qed.

Lemma users_get_del_same k d : users_get k (users_del k d) = None.
Proof. apply dict_get_del_same, Z.eqb_spec. Qed.

Lemma users_get_del_other k k' d :
  k <> k' -> users_get k' (users_del k d) = users_get k' d.
Proof. apply dict_get_del_other, Z.eqb_spec. Qed.

Lemma next_get_set_same k v d : next_get k (next_set k v d) = Some v.
Proof. apply dict_get_set_same, Z.eqb_spec. Qed.

Lemma next_get_del_same k d : next_get k (next_del k d) = None.
Proof. apply dict_get_del_same, Z.eqb_spec. Qed.

(** [register_next_step_handler] on a chat with nothing pending. *)
Lemma register_fresh chat f s :
  next_get chat (next_step s) = None ->
  register_next_step_handler chat f s =
  (Ok tt, with_next (next_set chat [f] (next_step s)) s).
Proof. unfold register_next_step_handler. now intros ->. Qed.

(** ** resultv2.py: what one call does *)

Section V2Facts.
Variable w : World.

Local Abbreviation fetch := (fetch w).
Local Abbreviation send_weather_update_nf := (send_weather_update_nf w).
Local Abbreviation fetch_of := (fetch_of w).
Local Abbreviation attempt_of := (attempt_of w).

Lemma get_weather_eq city language s :
  V2.get_weather w city language s =
  (fetch (tick s) city language,
   record (Get (V2.weather_url w city language)) s).
Proof.
  unfold V2.get_weather, try_except, bind, http_get_json, lift, raise, fetch.
  destruct (requests_get w (tick s) (V2.weather_url w city language));
    [destruct (V2.read_report city a)|]; reflexivity.
Qed.

Lemma fetch_stable t city language :
  stable_provider w -> fetch t city language = fetch 0 city language.
Proof. intros St. unfold fetch. now rewrite (St t 0%nat). Qed.

Lemma send_weather_update_eq chat_id city language s :
  V2.send_weather_update w chat_id city language s =
  send_weather_update_nf chat_id city language s.
Proof.
  unfold V2.send_weather_update, send_weather_update_nf, try_except, bind.
  rewrite get_weather_eq.
  destruct (fetch (tick s) city language) as [weather|e].
  - unfold bot_send_message. rewrite tick_record.
    destruct (send_message w (S (tick s)) chat_id weather); reflexivity.
  - destruct (is_class WeatherServiceError e); [|reflexivity].
    unfold bot_send_message, unavailable. rewrite tick_record.
    destruct (send_message w (S (tick s)) chat_id _); reflexivity.
Qed.

Lemma send_weather_update_run chat city language s :
  exists r evs,
    V2.send_weather_update w chat city language s = (r, extend evs s) /\
    urls evs = [V2.weather_url w city language] /\
    sent_to evs
    = (if answers (fetch (tick s) city language) then [chat] else []) /\
    (forall weather,
        fetch (tick s) city language = Ok weather ->
        r = Ok tt /\ exists d, In (Send chat weather None d) evs).
Proof.
  rewrite send_weather_update_eq. unfold send_weather_update_nf. cbv zeta.
  destruct (fetch (tick s) city language) as [weather|e]; cbn [answers].
  - destruct (send_message w (S (tick s)) chat weather); norm;
      (do 2 eexists; split; [reflexivity|]; split; [reflexivity|];
       split; [reflexivity|]; intros ? [= <-]; split; [reflexivity|];
       eexists; simpl; eauto).
  - destruct (is_class WeatherServiceError e).
    + destruct (send_message w (S (tick s)) chat _); norm;
        (do 2 eexists; split; [reflexivity|]; split; [reflexivity|];
         split; [reflexivity|]; discriminate).
    + norm. do 2 eexists; split; [reflexivity|]; split; [reflexivity|];
         split; [reflexivity|]; discriminate.
Qed.

(** One turn of the broadcast loop returns normally, whatever the fetch
    and the transport do. *)
Lemma update_one_run chat info s :
  exists evs,
    V2.update_one w chat info s = (Ok tt, extend evs s) /\
    urls evs = fetch_of (chat, info) /\
    sent_to evs =
      match info_get "city" info with
      | Some city =>
        if answers (fetch (tick s) city (language_of info)) then [chat] else []
      | None => []
      end /\
    (forall city weather,
        info_get "city" info = Some city ->
        fetch (tick s) city (language_of info) = Ok weather ->
        exists d, In (Send chat weather None d) evs).
Proof.
  unfold V2.update_one, try_except, bind, lift, info_item, fetch_of.
  cbn [snd]. fold (language_of info).
  destruct (info_get "city" info) as [city|].
  - destruct (send_weather_update_run chat city (language_of info) s)
      as (r & evs & E & U & S & D).
    rewrite E. destruct r as [[]|e].
    + exists evs. repeat split; auto.
      intros c we [= <-] F. now apply D.
    + unfold logger_error. norm. eexists. split; [reflexivity|].
      rewrite urls_app, sent_to_app, U, S. simpl. rewrite !app_nil_r.
      repeat split; auto.
      intros c we [= <-] F. destruct (D _ F) as [? _]. discriminate.
  - unfold logger_error. norm. eexists. split; [reflexivity|].
    repeat split; auto. discriminate.
Qed.

(** The whole loop: it returns normally, makes the request of every
    subscriber in turn, and sends its weather to every subscriber whose
    own fetch works. *)
Lemma for_each_user_run items : forall s,
  exists evs,
    V2.for_each_user w items s = (Ok tt, extend evs s) /\
    urls evs = flat_map fetch_of items /\
    (forall chat info city weather,
        In (chat, info) items ->
        info_get "city" info = Some city ->
        (forall t, fetch t city (language_of info) = Ok weather) ->
        exists d, In (Send chat weather None d) evs) /\
    (stable_provider w -> sent_to evs = flat_map attempt_of items).
Proof.
  induction items as [|[chat info] rest IH]; intros s.
  - exists []. rewrite extend_nil. repeat split; auto.
    intros ? ? ? ? [].
  - cbn [V2.for_each_user]. unfold bind.
    destruct (update_one_run chat info s) as (e1 & E1 & U1 & S1 & D1).
    rewrite E1.
    destruct (IH (extend e1 s)) as (e2 & E2 & U2 & D2 & S2).
    rewrite E2. norm. exists (e1 ++ e2)%list.
    split; [reflexivity|]. split; [|split].
    + rewrite urls_app, U1, U2. reflexivity.
    + intros c i city weather [[= <- <-]|In'] Hc Hf.
      * destruct (D1 city weather Hc (Hf _)) as [d Hd].
        exists d. apply in_or_app; auto.
      * destruct (D2 c i city weather In' Hc Hf) as [d Hd].
        exists d. apply in_or_app; auto.
    + intros St. rewrite sent_to_app, S1, (S2 St).
      cbn [flat_map]. f_equal. unfold attempt_of. cbn [fst snd].
      destruct (info_get "city" info); auto.
      now rewrite (fetch_stable _ _ _ St).
Qed.

Lemma send_updates_to_all_users_run s :
  exists evs,
    V2.send_updates_to_all_users w s
    = (Ok tt, extend (started :: evs ++ [completed]) s) /\
    urls evs = flat_map fetch_of (users s) /\
    (forall chat info city weather,
        In (chat, info) (users s) ->
        info_get "city" info = Some city ->
        (forall t, fetch t city (language_of info) = Ok weather) ->
        exists d, In (Send chat weather None d) evs) /\
    (stable_provider w -> sent_to evs = flat_map attempt_of (users s)).
Proof.
  unfold V2.send_updates_to_all_users, bind, logger_info, get_users.
  cbn [users record].
  destruct (for_each_user_run (users s) (record started s))
    as (evs & E & U & D & S).
  fold started. rewrite E. norm. exists evs. auto.
Qed.
End V2Facts.

(** ** resultv1.py: what one call does *)

Section V1Facts.
Variable w : World.

Local Abbreviation v1_fetch := (v1_fetch w).
Local Abbreviation v1_update := (v1_update w).
Local Abbreviation v1_loop := (v1_loop w).

Lemma v1_get_weather_eq city s :
  V1.get_weather w city s
  = (fst (v1_fetch (tick s) city), extend (snd (v1_fetch (tick s) city)) s).
Proof.
  unfold V1.get_weather, v1_fetch, v1_read, bind, http_get_json, lift, ret,
    translator_translate, rbind.
  destruct (requests_get w (tick s) (V1.weather_url city)) as [data|e];
    [|reflexivity].
  destruct (Py.get data "cod" JNull) as [cod|e]; [|reflexivity].
  destruct (Py.eq_200 cod); [|reflexivity].
  destruct (Py.item data "main") as [main|e]; [|reflexivity].
  destruct (Py.item main "temp") as [temperature|e]; [|reflexivity].
  destruct (Py.item data "weather") as [weather|e]; [|reflexivity].
  destruct (Py.item0 weather) as [weather0|e]; [|reflexivity].
  destruct (Py.item weather0 "description") as [description|e]; [|reflexivity].
  rewrite tick_record. cbn [fst snd].
  destruct (translate w (S (tick s)) description (Some "en") "ru");
    norm; reflexivity.
Qed.

Lemma v1_send_weather_update_eq chat city s :
  V1.send_weather_update w chat city s
  = (fst (v1_update (tick s) chat city),
     extend (snd (v1_update (tick s) chat city)) s).
Proof.
  unfold V1.send_weather_update, bind, v1_update.
  rewrite v1_get_weather_eq.
  destruct (v1_fetch (tick s) city) as [[weather|e] evs]; cbn [fst snd];
    [|reflexivity].
  unfold bot_send_message. rewrite tick_extend.
  destruct (send_message w (tick s + List.length evs) chat weather);
    norm; reflexivity.
Qed.

Lemma v1_for_each_user_eq items : forall s,
  V1.for_each_user w items s
  = (fst (v1_loop (tick s) items), extend (snd (v1_loop (tick s) items)) s).
Proof.
  induction items as [|[chat info] rest IH]; intros s; cbn [V1.for_each_user v1_loop].
  - unfold ret. now rewrite extend_nil.
  - unfold bind, lift, info_item.
    destruct (info_get "city" info) as [city|];
      [|cbn [fst snd]; now rewrite extend_nil].
    rewrite v1_send_weather_update_eq.
    destruct (v1_update (tick s) chat city) as [[[]|e] evs]; cbn [fst snd];
      [|reflexivity].
    rewrite IH, tick_extend.
    destruct (v1_loop (tick s + List.length evs) rest) as [r evs'].
    cbn [fst snd]. now norm.
Qed.



End V1Facts.

(** ** Registering a city (resultv2.py) *)

Section Registration.
Variable w : World.

Local Abbreviation city_url := (city_url w).
Local Abbreviation rejected_city_nf := (rejected_city_nf w).

Lemma process_city_input_rejected m t e s :
  text_of m = Some t ->
  fetch w (tick s) (PyStr.strip t) V2.DEFAULT_LANGUAGE = Raise e ->
  V2.process_city_input w m s = rejected_city_nf m t e s.
Proof.
  intros T F.
  unfold V2.process_city_input, rejected_city_nf, try_except, bind, lift,
    text_method, city_url.
  rewrite T, get_weather_eq, F.
  destruct (is_class WeatherServiceError e); [|reflexivity].
  unfold bot_send_message at 1. rewrite tick_record.
  destruct (send_message w (S (tick s)) (chat_id_of m) (V2.city_not_found m));
    reflexivity.
Qed.

(** A rejected city never touches [users]. *)
Lemma rejected_city_keeps_users m t e s :
  users (snd (rejected_city_nf m t e s)) = users s.
Proof.
  unfold rejected_city_nf, register_next_step_handler, bot_send_message.
  cbv zeta.
  destruct (is_class WeatherServiceError e).
  - destruct (send_message w (S (tick s)) (chat_id_of m) (V2.city_not_found m));
      reflexivity.
  - destruct (send_message w _ (chat_id_of m) apology); reflexivity.
Qed.

Lemma users_bot_send_message chat text mk s :
  users (snd (bot_send_message w chat text mk s)) = users s.
Proof.
  unfold bot_send_message.
  destruct (send_message w (tick s) chat text); reflexivity.
Qed.

Lemma users_send_weather_update chat city language s :
  users (snd (V2.send_weather_update w chat city language s)) = users s.
Proof.
  destruct (send_weather_update_run w chat city language s)
    as (r & evs & E & _).
  now rewrite E.
Qed.

(** [process_city_input] when the validating [get_weather] returns: the
    record is written, before anything is sent, and stays. *)
Lemma process_city_input_accepted m t report s :
  text_of m = Some t ->
  fetch w (tick s) (PyStr.strip t) V2.DEFAULT_LANGUAGE = Ok report ->
  users (snd (V2.process_city_input w m s))
  = users_set (chat_id_of m)
              [("city", PyStr.strip t); ("language", V2.DEFAULT_LANGUAGE)]
              (users s).
Proof.
  intros T F.
  unfold V2.process_city_input, try_except, bind, lift, text_method,
    get_users, put_users.
  rewrite T, get_weather_eq, F. cbn [users record].
  set (u := users_set _ _ _).
  set (s1 := with_users u _).
  assert (U1 : users s1 = u) by reflexivity.
  unfold bot_send_message at 1.
  destruct (send_message w (tick s1) (chat_id_of m) _) as [err|].
  - cbn [is_class class_of]. unfold logger_error.
    now rewrite users_bot_send_message.
  - set (s2 := record _ s1).
    pose proof (users_send_weather_update (chat_id_of m) (PyStr.strip t)
                  V2.DEFAULT_LANGUAGE s2) as U2.
    destruct (V2.send_weather_update w (chat_id_of m) (PyStr.strip t)
                V2.DEFAULT_LANGUAGE s2) as [[[]|e] s3]; cbn [snd] in *.
    + now rewrite U2.
    + destruct (is_class WeatherServiceError e).
      * pose proof (users_bot_send_message (chat_id_of m)
                      (V2.city_not_found m) None s3) as U3.
        destruct (bot_send_message w (chat_id_of m) (V2.city_not_found m)
                    None s3) as [[[]|e'] s4]; cbn [snd] in *.
        -- unfold register_next_step_handler. cbn. now rewrite U3, U2.
        -- now rewrite U3, U2.
      * unfold logger_error. now rewrite users_bot_send_message.
Qed.
(** After a registration that went through nothing is pending for the chat:
  no path of [process_city_input] registers a next step then. *)
Lemma process_city_input_accepted_next m t report s :
text_of m = Some t ->
fetch w (tick s) (PyStr.strip t) V2.DEFAULT_LANGUAGE = Ok report ->
next_step (snd (V2.process_city_input w m s)) = next_step s.
Proof.
intros T F.
unfold V2.process_city_input, try_except, bind, lift, text_method,
  get_users, put_users.
rewrite T, get_weather_eq, F. cbn [users record].
set (s1 := with_users _ _).
unfold bot_send_message at 1.
destruct (send_message w (tick s1) (chat_id_of m) _) as [err|].
- cbn [is_class class_of]. unfold logger_error, bot_send_message.
  destruct (send_message w _ (chat_id_of m) _); reflexivity.
- rewrite send_weather_update_eq. unfold send_weather_update_nf. cbv zeta.
  match goal with
  | |- context [match fetch w ?t' ?c ?l with _ => _ end] =>
    destruct (fetch w t' c l) as [we|e]
  end.
  + destruct (send_message w _ (chat_id_of m) we); reflexivity.
  + destruct (is_class WeatherServiceError e).
    * destruct (send_message w _ (chat_id_of m) _); [|reflexivity].
      cbn [is_class class_of]. unfold logger_error, bot_send_message.
      destruct (send_message w _ (chat_id_of m) _); reflexivity.
    * reflexivity.
Qed.
End Registration.

Lemma since_trace evs s s' :
  trace s' = (trace s ++ evs)%list -> since s s' = evs.
Proof.
  unfold since, tick. intros ->.
  rewrite skipn_app, skipn_all, Nat.sub_diag. reflexivity.
Qed.

(** ** C1: a city the fetch fails for *)

(** The routing of a message to [process_city_input] when that is what the
    chat is waiting for. *)
Lemma route_to_city_input w m s :
  next_get (chat_id_of m) (next_step s) = Some [cb_process_city_input] ->
  V2.process_new_message w m s
  = bind (V2.process_city_input w m) (fun _ => ret tt)
         (with_next (next_del (chat_id_of m) (next_step s)) s).
Proof. unfold V2.process_new_message. now intros ->. Qed.

(** C1, as amended.  resultv2.py: a chat is waiting for its city and sends a
    text for which the validating [get_weather] raises [e].  Then [users] is
    left exactly as it was.  When moreover [e] is a [WeatherServiceError]
    and the transport accepts the retry prompt, the handler returns
    normally, [process_city_input] is again the next step of the chat (the
    chat is still in AwaitingCity), and all that happened is the request and
    the prompt.  resultv1.py: whatever the provider would answer, [get_city]
    makes no request at all and stores the city as soon as its confirmation
    has been sent; so does the answer of a chat that [/start] left waiting
    for its city, and that chat is then Idle. *)
Theorem city_rejected (w : World) (m : message) (t : string) (s : state) :
  text_of m = Some t ->
  (* resultv2.py *)
  (forall e,
      next_get (chat_id_of m) (next_step s) = Some [cb_process_city_input] ->
      fetch w (tick s) (PyStr.strip t) V2.DEFAULT_LANGUAGE = Raise e ->
      users (snd (V2.process_new_message w m s)) = users s /\
      (is_class WeatherServiceError e = true ->
       send_message w (S (tick s)) (chat_id_of m) (V2.city_not_found m) = None ->
       fst (V2.process_new_message w m s) = Ok tt /\
       next_get (chat_id_of m) (next_step (snd (V2.process_new_message w m s)))
       = Some [cb_process_city_input] /\
       conversation_state (snd (V2.process_new_message w m s)) (chat_id_of m)
       = AwaitingCity /\
       since s (snd (V2.process_new_message w m s))
       = [Get (V2.weather_url w (PyStr.strip t) V2.DEFAULT_LANGUAGE);
          Send (chat_id_of m) (V2.city_not_found m) None true]))
  /\
  (* resultv1.py *)
  (send_message w (tick s) (chat_id_of m)
                ("Отлично! Теперь я буду присылать погоду для города "
                   ++ PyStr.strip t ++ " каждый час.") = None ->
   (users (snd (V1.get_city w m s))
    = users_set (chat_id_of m) [("city", PyStr.strip t)] (users s) /\
    urls (since s (snd (V1.get_city w m s))) = []) /\
   (next_get (chat_id_of m) (next_step s) = Some [cb_get_city] ->
    fst (V1.process_new_message w m s) = Ok tt /\
    users (snd (V1.process_new_message w m s))
    = users_set (chat_id_of m) [("city", PyStr.strip t)] (users s) /\
    urls (since s (snd (V1.process_new_message w m s))) = [] /\
    conversation_state (snd (V1.process_new_message w m s)) (chat_id_of m)
    = Idle)).
Proof.
  intros T. split; [intros e N F; split|].
  - rewrite (route_to_city_input w m s N). unfold bind.
    rewrite (process_city_input_rejected w m t e (with_next _ s) T F).
    pose proof (rejected_city_keeps_users w m t e
                  (with_next (next_del (chat_id_of m) (next_step s)) s)) as U.
    destruct (rejected_city_nf w m t e _) as [[[]|e'] s']; exact U.
  - intros C A.
    rewrite (route_to_city_input w m s N). unfold bind.
    rewrite (process_city_input_rejected w m t e (with_next _ s) T F).
    unfold rejected_city_nf. cbv zeta. rewrite C.
    change (tick (with_next (next_del (chat_id_of m) (next_step s)) s))
      with (tick s).
    rewrite A. unfold register_next_step_handler.
    cbn [next_step record with_next].
    rewrite next_get_del_same. cbn [app fst snd ret next_step].
    assert (G : next_get (chat_id_of m)
                  (next_set (chat_id_of m) [cb_process_city_input]
                            (next_del (chat_id_of m) (next_step s)))
                = Some [cb_process_city_input])
      by apply next_get_set_same.
    repeat split; auto.
    + unfold conversation_state. cbn [next_step with_next]. now rewrite G.
    + apply since_trace. cbn [trace record with_next]. unfold city_url.
      now rewrite <- app_assoc.
  - intros A. split.
    + unfold V1.get_city, bind, lift, text_method, bot_send_message, get_users,
        put_users.
      rewrite T, A. cbn [fst snd users record with_users]. split; auto.
      erewrite since_trace; [|reflexivity]. reflexivity.
    + intros N. unfold V1.process_new_message. rewrite N.
      cbn [V1.run_callbacks V1.run_callback].
      unfold V1.get_city, bind, lift, text_method, bot_send_message, get_users,
        put_users, ret.
      rewrite T.
      change (tick (with_next (next_del (chat_id_of m) (next_step s)) s))
        with (tick s).
      rewrite A. cbn [fst snd users record with_users with_next].
      split; [reflexivity|]. split; [reflexivity|]. split.
      * erewrite since_trace; [|reflexivity]. reflexivity.
      * unfold conversation_state.
        cbn [next_step with_users record with_next].
        now rewrite next_get_del_same.
Qed.

Lemma city_rejected_witness :
  (let s' := snd (V2.process_new_message
                    Sample.no_city (Sample.msg 7 "Atlantis")
                    (Sample.asked_city cb_process_city_input 7 [])) in
   users s' = [] /\ conversation_state s' 7 = AwaitingCity)
  /\
  (let s' := snd (V1.process_new_message
                    Sample.no_city (Sample.msg 7 "Atlantis")
                    (Sample.asked_city cb_get_city 7 [])) in
   users s' = [(7%Z, [("city", "Atlantis")])] /\ urls (trace s') = []).
Proof.
  split.
  - destruct (proj1 (city_rejected Sample.no_city (Sample.msg 7 "Atlantis")
                                   "Atlantis"
                                   (Sample.asked_city cb_process_city_input 7 [])
                                   eq_refl)
                    (Exn WeatherServiceError "API error: city not found")
                    eq_refl eq_refl) as [U A].
    split; [exact U|].
    exact (proj1 (proj2 (proj2 (A eq_refl eq_refl)))).
  - destruct (proj2 (proj2 (city_rejected
                              Sample.no_city (Sample.msg 7 "Atlantis")
                              "Atlantis"
                              (Sample.asked_city cb_get_city 7 [])
                              eq_refl) eq_refl) eq_refl)
      as (_ & U & R & _).
    split; [exact U|exact R].
Defined.

(** C1 as stated fails.  resultv1.py: the provider knows no city, the chat is
    waiting for its city and sends "Atlantis"; [get_city] stores it and the
    chat is back to Idle.  resultv2.py: the provider answers with a list,
    [get_weather] raises an [AttributeError], the chat is told to try later
    and is back to Idle. *)
Lemma city_rejected_counterexample :
  (forall t, fst (v1_fetch Sample.no_city t "Atlantis") = Ok failure_text)
  /\ (let s := Sample.asked_city cb_get_city 7 [] in
      let s' := snd (V1.process_new_message Sample.no_city
                                            (Sample.msg 7 "Atlantis") s) in
      conversation_state s 7 = AwaitingCity
      /\ users_get 7 (users s) = None
      /\ users_get 7 (users s') = Some [("city", "Atlantis")]
      /\ conversation_state s' 7 = Idle)
  /\ (forall t, fetch Sample.garbled t "Atlantis" V2.DEFAULT_LANGUAGE
                = Raise (Exn AttributeError
                             "'list' object has no attribute 'get'"))
  /\ (let s := Sample.asked_city cb_process_city_input 7 [] in
      let s' := snd (V2.process_new_message Sample.garbled
                                            (Sample.msg 7 "Atlantis") s) in
      conversation_state s 7 = AwaitingCity
      /\ conversation_state s' 7 = Idle
      /\ shown_to 7 (trace s') = [apology]).
Proof.
  split; [intros t; reflexivity|].
  split; [vm_compute; repeat split; reflexivity|].
  split; [intros t; reflexivity|].
  vm_compute; repeat split; reflexivity.
Qed.

(** ** C2: one failing fetch in a broadcast *)

(** resultv1.py: a subscriber the provider answers with a status other than
    200 is sent the fixed text, and the loop goes on. *)
Lemma v1_survives_status w chat info city rest data cod s :
  info_get "city" info = Some city ->
  requests_get w (tick s) (V1.weather_url city) = Ok data ->
  Py.get data "cod" JNull = Ok cod ->
  Py.eq_200 cod = false ->
  send_message w (S (tick s)) chat failure_text = None ->
  V1.for_each_user w ((chat, info) :: rest) s
  = V1.for_each_user w rest
      (extend [Get (V1.weather_url city); Send chat failure_text None true] s).
Proof.
  intros C R G E A.
  cbn [V1.for_each_user]. unfold bind at 1, lift, info_item. rewrite C.
  unfold bind at 1. rewrite v1_send_weather_update_eq.
  unfold v1_update, v1_fetch, v1_read. cbv zeta.
  rewrite R, G. cbn [rbind]. rewrite E. cbn [List.length].
  replace (tick s + 1)%nat with (S (tick s)) by lia.
  rewrite A. reflexivity.
Qed.

(** resultv1.py: a request that raises ends the loop there. *)
Lemma v1_stops_at_exception w chat info city rest e s :
  info_get "city" info = Some city ->
  requests_get w (tick s) (V1.weather_url city) = Raise e ->
  V1.for_each_user w ((chat, info) :: rest) s
  = (Raise e, extend [Get (V1.weather_url city)] s).
Proof.
  intros C R.
  cbn [V1.for_each_user]. unfold bind at 1, lift, info_item. rewrite C.
  unfold bind at 1. rewrite v1_send_weather_update_eq.
  unfold v1_update, v1_fetch. cbv zeta. rewrite R. reflexivity.
Qed.

(** resultv2.py: the subscriber that comes after [before] in the loop is
    sent its weather when its own fetch, at the moment of its turn, works. *)
Lemma for_each_user_delivers w (chat : Z) (info : user_info) city weather
      (after before : users_t) : forall s,
  info_get "city" info = Some city ->
  fetch w (tick (snd (V2.for_each_user w before s))) city (language_of info)
  = Ok weather ->
  exists delivered,
    In (Send chat weather None delivered)
       (since s (snd (V2.for_each_user
                        w (before ++ (chat, info) :: after)%list s))).
Proof.
  induction before as [|[c i] before IH]; intros s C F.
  - cbn [V2.for_each_user app snd ret] in *. unfold bind.
    destruct (update_one_run w chat info s) as (e1 & E1 & _ & _ & D1).
    rewrite E1.
    destruct (for_each_user_run w after (extend e1 s)) as (e2 & E2 & _).
    rewrite E2. cbn [snd]. norm. rewrite since_extend.
    destruct (D1 city weather C F) as [d Hd].
    exists d. apply in_or_app. now left.
  - cbn [V2.for_each_user app] in *. unfold bind in *.
    destruct (update_one_run w c i s) as (e1 & E1 & _).
    rewrite E1 in *.
    destruct (IH (extend e1 s) C F) as [d Hd]. exists d.
    destruct (for_each_user_run w (before ++ (chat, info) :: after)%list
                                (extend e1 s)) as (e2 & E2 & _).
    rewrite E2 in *. cbn [snd] in *. rewrite since_extend in Hd.
    norm. rewrite since_extend. apply in_or_app. now right.
Qed.

(** C2, as amended.  resultv2.py: [send_updates_to_all_users] returns
    normally from every state and in every world; between its two log
    lines it makes the request of every subscriber of the snapshot, in
    order, whatever the other requests and sends did; and every subscriber
    whose own fetch works, at the moment of its turn, is sent its weather,
    whatever happened to those before it.  resultv1.py: a subscriber whose
    fetch is answered with a status other than 200 is sent the fixed
    failure text and the loop goes on to the others. *)
Theorem broadcast_reaches_everyone (w : World) (s : state) :
  (exists evs,
      V2.send_updates_to_all_users w s
      = (Ok tt, extend (started :: evs ++ [completed]) s) /\
      urls evs = flat_map (fetch_of w) (users s) /\
      (forall before chat info after city weather,
          users s = (before ++ (chat, info) :: after)%list ->
          info_get "city" info = Some city ->
          fetch w (turn_moment w s before) city (language_of info)
          = Ok weather ->
          exists delivered, In (Send chat weather None delivered) evs))
  /\
  (forall chat info city rest data cod,
      info_get "city" info = Some city ->
      requests_get w (tick s) (V1.weather_url city) = Ok data ->
      Py.get data "cod" JNull = Ok cod ->
      Py.eq_200 cod = false ->
      send_message w (S (tick s)) chat failure_text = None ->
      V1.for_each_user w ((chat, info) :: rest) s
      = V1.for_each_user w rest
          (extend [Get (V1.weather_url city); Send chat failure_text None true]
                  s)).
Proof.
  split.
  - destruct (send_updates_to_all_users_run w s) as (evs & E & U & _).
    exists evs. split; [exact E|]. split; [exact U|].
    intros before chat info after city weather Us C F.
    destruct (for_each_user_delivers w chat info city weather after before
                                     (record started s) C F) as [d Hd].
    exists d. rewrite <- Us in Hd.
    assert (Ev : since (record started s)
                       (snd (V2.for_each_user w (users s) (record started s)))
                 = evs).
    { destruct (for_each_user_run w (users s) (record started s))
        as (evs' & E' & _).
      rewrite E'. cbn [snd]. rewrite since_extend.
      revert E. unfold V2.send_updates_to_all_users, bind, logger_info,
        get_users.
      cbn [users record]. fold started. rewrite E'. norm.
      fold completed. intros [= E].
      apply app_inv_head in E.
      change (started :: (evs' ++ [completed])%list)
        with ([started] ++ evs' ++ [completed])%list in E.
      change (started :: (evs ++ [completed])%list)
        with ([started] ++ evs ++ [completed])%list in E.
      apply app_inv_head in E. now apply app_inv_tail in E. }
    now rewrite Ev in Hd.
  - intros. now apply v1_survives_status with (data := data) (cod := cod).
Qed.

Lemma broadcast_reaches_everyone_witness :
  (exists evs,
      V2.send_updates_to_all_users Sample.berlin_down
                                   (Sample.subscribed Sample.three_cities_ru)
      = (Ok tt, extend (started :: evs ++ [completed])
                       (Sample.subscribed Sample.three_cities_ru))
      /\ exists delivered,
          In (Send 3 ("Погода в городе Rome:" ++ nl
                      ++ "🌡 Температура: 12.3°C" ++ nl
                      ++ "☁️ Состояние: Light rain" ++ nl
                      ++ "💧 Влажность: 81%" ++ nl
                      ++ "💨 Скорость ветра: 3.6 м/с") None delivered) evs)
  /\
  (exists evs,
      V2.send_updates_to_all_users Sample.warming
                                   (Sample.subscribed Sample.three_cities_ru)
      = (Ok tt, extend (started :: evs ++ [completed])
                       (Sample.subscribed Sample.three_cities_ru))
      /\ exists delivered,
          In (Send 2 ("Погода в городе Berlin:" ++ nl
                      ++ "🌡 Температура: 15.0°C" ++ nl
                      ++ "☁️ Состояние: Clear sky" ++ nl
                      ++ "💧 Влажность: 70%" ++ nl
                      ++ "💨 Скорость ветра: 2.1 м/с") None delivered) evs).
Proof.
  split.
  - destruct (proj1 (broadcast_reaches_everyone
                       Sample.berlin_down
                       (Sample.subscribed Sample.three_cities_ru)))
      as (evs & E & _ & D).
    exists evs. split; [exact E|].
    exact (D [(1%Z, [("city", "Paris"); ("language", "ru")]);
              (2%Z, [("city", "Berlin"); ("language", "ru")])]
             3%Z [("city", "Rome"); ("language", "ru")] [] "Rome" _
             eq_refl eq_refl eq_refl).
  - destruct (proj1 (broadcast_reaches_everyone
                       Sample.warming
                       (Sample.subscribed Sample.three_cities_ru)))
      as (evs & E & _ & D).
    exists evs. split; [exact E|].
    exact (D [(1%Z, [("city", "Paris"); ("language", "ru")])]
             2%Z [("city", "Berlin"); ("language", "ru")]
             [(3%Z, [("city", "Rome"); ("language", "ru")])] "Berlin" _
             eq_refl eq_refl eq_refl).
Defined.

(** C2 as stated fails on resultv1.py.  Three subscribers, the provider
    cannot be reached for the second one's city: the exception leaves
    [send_updates_to_all_users], the first subscriber was served, and no
    request and no message was made for the third, whose fetch works. *)
Lemma broadcast_counterexample :
  let run := V1.send_updates_to_all_users Sample.berlin_down
                                          (Sample.subscribed Sample.three_cities) in
  (forall t, fst (v1_fetch Sample.berlin_down t "Rome")
             = Ok "Погода в городе Rome: 12.3°C, небольшой дождь")
  /\ fst run = Raise (Exn RequestException "Connection refused")
  /\ urls (trace (snd run))
     = [V1.weather_url "Paris"; V1.weather_url "Berlin"]
  /\ sent_to (trace (snd run)) = [1%Z].
Proof.
  split; [intros t; reflexivity|].
  vm_compute. repeat split; reflexivity.
Qed.

(** The same world and subscribers in resultv2.py: everyone is served. *)
Example broadcast_v2_example :
  let run := V2.send_updates_to_all_users Sample.berlin_down
                                          (Sample.subscribed Sample.three_cities_ru) in
  fst run = Ok tt /\ sent_to (trace (snd run)) = [1%Z; 2%Z; 3%Z].
Proof. vm_compute. split; reflexivity. Qed.

(** ** C3 and C4: a record with an empty city *)

Lemma urls_logs_around evs :
  urls (started :: evs ++ [completed]) = urls evs.
Proof.
  change (started :: evs ++ [completed])%list
    with ([started] ++ evs ++ [completed])%list.
  rewrite !urls_app. simpl. now rewrite app_nil_r.
Qed.

Lemma sent_to_logs_around evs :
  sent_to (started :: evs ++ [completed]) = sent_to evs.
Proof.
  change (started :: evs ++ [completed])%list
    with ([started] ++ evs ++ [completed])%list.
  rewrite !sent_to_app. simpl. now rewrite app_nil_r.
Qed.

(** C3, the code at the failing input.  The only record of [users] is the
    one [process_language_selection] makes for a chat without a city.  In
    every world and at every moment the broadcast makes the request for the
    empty city name; with a provider that answers it the way the real one
    does, the chat is sent the error line, cycle after cycle. *)
Theorem empty_city_is_broadcast :
  (forall (w : World) (tr : list event),
      let s := {| users := [(7%Z, [("city", ""); ("language", "en")])];
                  next_step := []; trace := tr |} in
      urls (since s (snd (V2.send_updates_to_all_users w s)))
      = [V2.weather_url w "" "en"])
  /\
  (let s := Sample.subscribed [(7%Z, [("city", ""); ("language", "en")])] in
   let s1 := snd (V2.send_updates_to_all_users Sample.geocoder s) in
   let s2 := snd (V2.send_updates_to_all_users Sample.geocoder s1) in
   since s s1
   = [started;
      Get "http://api.openweathermap.org/data/2.5/weather?q=&appid=k&units=metric&lang=en";
      Send 7 "Не удалось получить погоду для : API error: Nothing to geocode"
           None true;
      Log ERROR "Не удалось получить погоду для : API error: Nothing to geocode";
      completed]
   /\ since s1 s2 = since s s1).
Proof.
  split.
  - intros w tr s.
    destruct (send_updates_to_all_users_run w s) as (evs & E & U & _).
    rewrite E. cbn [snd]. rewrite since_extend, urls_logs_around, U.
    reflexivity.
  - vm_compute. split; reflexivity.
Qed.

(** [process_language_selection] for a chat that is not in [users]: the
    bare record is written, whatever the transport does next. *)
Lemma language_before_city w m choice lang s :
  text_of m = Some choice ->
  info_get (PyStr.lower choice) V2.lang_map = Some lang ->
  users_get (chat_id_of m) (users s) = None ->
  users (snd (V2.process_language_selection w m s))
  = users_set (chat_id_of m) [("city", ""); ("language", lang)] (users s).
Proof.
  intros T L U.
  unfold V2.process_language_selection, bind, lift, text_method, get_users,
    put_users.
  rewrite T, L, U. apply users_bot_send_message.
Qed.

(** [/now] for a chat that has a record: it never answers with the prompt to
    set a city; the first thing it does is to send [please_wait]. *)
Lemma now_with_record w m info s :
  users_get (chat_id_of m) (users s) = Some info ->
  exists delivered rest,
    since s (snd (V2.send_current_weather w m s))
    = Send (chat_id_of m) please_wait None delivered :: rest.
Proof.
  intros U.
  unfold V2.send_current_weather, bind at 1, get_users. rewrite U.
  unfold try_except, bind at 1, bot_send_message at 1. fold please_wait.
  destruct (send_message w (tick s) (chat_id_of m) please_wait) as [err|].
  - unfold bind, logger_error, bot_send_message.
    destruct (send_message w _ (chat_id_of m) _); norm;
      cbn [snd]; rewrite since_extend; eauto.
  - unfold bind at 1, lift, info_item.
    destruct (info_get "city" info) as [city|].
    + destruct (send_weather_update_run w (chat_id_of m) city
                  (info_get_default info "language" V2.DEFAULT_LANGUAGE)
                  (record (Send (chat_id_of m) please_wait None true) s))
        as (r & evs & E & _).
      rewrite E. destruct r as [[]|e].
      * norm. cbn [snd]. rewrite since_extend. eauto.
      * unfold bind, logger_error, bot_send_message.
        destruct (send_message w _ (chat_id_of m) _); norm;
          cbn [snd]; rewrite since_extend; eauto.
    + unfold bind, logger_error, bot_send_message.
      destruct (send_message w _ (chat_id_of m) _); norm;
        cbn [snd]; rewrite since_extend; eauto.
Qed.

(** C4, the code at the failing input.  A chat without a subscription sends
    [/language] and then "English": its record is the bare one, as the claim
    says.  Its [/now] is then answered with [please_wait] and a request for
    the empty city name, in every world; with the sample provider the chat is
    sent the provider's error, and never the prompt to set a city. *)
Theorem language_then_now :
  (let s1 := Sample.feed (V2.process_new_message Sample.geocoder)
                         [Sample.msg 7 "/language"; Sample.msg 7 "English"]
                         Sample.empty in
   let s2 := snd (V2.process_new_message Sample.geocoder
                                         (Sample.msg 7 "/now") s1) in
   users s1 = [(7%Z, [("city", ""); ("language", "en")])]
   /\ conversation_state s1 7 = Idle
   /\ since s1 s2
      = [Send 7 please_wait None true;
         Get "http://api.openweathermap.org/data/2.5/weather?q=&appid=k&units=metric&lang=en";
         Send 7 "Не удалось получить погоду для : API error: Nothing to geocode"
              None true;
         Log ERROR "Не удалось получить погоду для : API error: Nothing to geocode"])
  /\
  (forall (w : World) (tr : list event),
      let s := {| users := [(7%Z, [("city", ""); ("language", "en")])];
                  next_step := []; trace := tr |} in
      exists delivered rest,
        since s (snd (V2.process_new_message w (Sample.msg 7 "/now") s))
        = Send 7 please_wait None delivered :: rest).
Proof.
  split.
  - vm_compute. repeat split; reflexivity.
  - intros w tr s.
    change (V2.process_new_message w (Sample.msg 7 "/now") s)
      with (V2.send_current_weather w (Sample.msg 7 "/now") s).
    apply (now_with_record w (Sample.msg 7 "/now")
                           [("city", ""); ("language", "en")] s).
    reflexivity.
Qed.

(** ** C5: a translation that fails *)

Section Translation.
Variables (w : World)
          (tr : nat -> json -> option string -> string -> result string).

Lemma get_weather_no_translation city language :
  V2.get_weather (with_translate tr w) city language
  = V2.get_weather w city language.
Proof. reflexivity. Qed.

Lemma send_weather_update_no_translation chat city language :
  V2.send_weather_update (with_translate tr w) chat city language
  = V2.send_weather_update w chat city language.
Proof. reflexivity. Qed.

Lemma send_updates_no_translation :
  V2.send_updates_to_all_users (with_translate tr w)
  = V2.send_updates_to_all_users w.
Proof. reflexivity. Qed.

Lemma process_new_message_no_translation m s :
  V2.process_new_message (with_translate tr w) m s
  = V2.process_new_message w m s.
Proof. reflexivity. Qed.
End Translation.

(** C5, as amended.  resultv2.py: the fetch has no translation step.
    [get_weather], the broadcast and every handler do the same in a world
    with any other translation service, so nothing a translation does can
    reach a user; [translate_text], which nothing calls, raises a
    [TranslationError] when the translation fails and does not return its
    argument.  resultv1.py: when the body has the temperature and the
    description and the translation raises, [get_weather] raises that
    exception: there is no fallback to the untranslated description. *)
Theorem translation_failure (w : World) :
  (forall tr city language,
      V2.get_weather (with_translate tr w) city language
      = V2.get_weather w city language)
  /\ (forall tr, V2.send_updates_to_all_users (with_translate tr w)
                 = V2.send_updates_to_all_users w)
  /\ (forall tr m s, V2.process_new_message (with_translate tr w) m s
                     = V2.process_new_message w m s)
  /\ (forall text dest s e,
         translate w (tick s) (JStr text) None dest = Raise e ->
         V2.translate_text w text dest s
         = (Raise (Exn TranslationError ("Ошибка перевода: " ++ str_of e)),
            extend [Translate (JStr text) None dest] s))
  /\ (forall city s data temperature description e,
         requests_get w (tick s) (V1.weather_url city) = Ok data ->
         v1_read data = Ok (Some (temperature, description)) ->
         translate w (S (tick s)) description (Some "en") "ru" = Raise e ->
         V1.get_weather w city s
         = (Raise e,
            extend [Get (V1.weather_url city);
                    Translate description (Some "en") "ru"] s)).
Proof.
  split; [intros; apply get_weather_no_translation|].
  split; [intros; apply send_updates_no_translation|].
  split; [intros; apply process_new_message_no_translation|].
  split.
  - intros text dest s e T.
    unfold V2.translate_text, try_except, translator_translate, raise.
    now rewrite T.
  - intros city s data temperature description e R D T.
    rewrite v1_get_weather_eq. unfold v1_fetch. cbv zeta.
    now rewrite R, D, T.
Qed.

Lemma translation_failure_witness :
  V1.get_weather Sample.translator_down "Paris" Sample.empty
  = (Raise (Exn OtherException "timed out"),
     extend [Get (V1.weather_url "Paris");
             Translate (JStr "light rain") (Some "en") "ru"] Sample.empty).
Proof.
  exact (proj2 (proj2 (proj2 (proj2
           (translation_failure Sample.translator_down))))
           "Paris" Sample.empty Sample.paris (JFloat "12.3")
           (JStr "light rain") (Exn OtherException "timed out")
           eq_refl eq_refl eq_refl).
Defined.

(** C5 as stated fails on resultv1.py.  The provider answers for Paris with
    a complete body, the translation times out: [get_weather] raises, and
    the broadcast to a subscriber of Paris ends with that exception and
    nothing sent. *)
Lemma translation_counterexample :
  let w := Sample.translator_down in
  requests_get w 0 (V1.weather_url "Paris") = Ok Sample.paris
  /\ v1_read Sample.paris = Ok (Some (JFloat "12.3", JStr "light rain"))
  /\ fst (V1.get_weather w "Paris" Sample.empty)
     = Raise (Exn OtherException "timed out")
  /\ (let run := V1.send_updates_to_all_users
                   w (Sample.subscribed [(1%Z, [("city", "Paris")])]) in
      fst run = Raise (Exn OtherException "timed out")
      /\ sent_to (trace (snd run)) = []).
Proof. vm_compute. repeat split; reflexivity. Qed.

(** ** C6: what a user sees of an error *)



Lemma append_assoc (a b c : string) : (a ++ b) ++ c = a ++ b ++ c.
Proof. induction a as [|x a IH]; cbn [append]; [reflexivity|]. now rewrite IH. Qed.






(** ** C7: /stop *)

(** C7, as amended.  In both programs, for every chat, world and state:
    - when the chat has a record, [/stop] removes it (a lookup then finds
      nothing) and all it does besides is to send the confirmation;
    - when the chat has none, [/stop] leaves [users] as it is and all it
      does is to send the "not subscribed" text: the absent key raises
      nothing, the outcome of the handler is the outcome of that one
      [bot.send_message], [Ok] as soon as the transport takes the message
      and the exception of the transport when it refuses it;
    - after a city registration that went through ([process_city_input]
      with a fetch that returns, [get_city] with its confirmation sent) the
      chat has a record, so [/stop] then removes it; in resultv2.py the chat
      is then back to Idle, so that its [/stop] is routed to [stop_updates]. *)
Theorem stop_unsubscribes (w : World) (m : message) (s : state) :
  (* resultv2.py *)
  (users_mem (chat_id_of m) (users s) = true ->
   V2.stop_updates w m s
   = bot_send_message w (chat_id_of m)
       "🔴 Вы отменили подписку на обновления погоды." None
       (with_users (users_del (chat_id_of m) (users s)) s)
   /\ users_get (chat_id_of m) (users (snd (V2.stop_updates w m s))) = None)
  /\
  (users_mem (chat_id_of m) (users s) = false ->
   V2.stop_updates w m s
   = bot_send_message w (chat_id_of m) "ℹ️ Вы не подписаны на обновления." None s
   /\ users (snd (V2.stop_updates w m s)) = users s
   /\ (send_message w (tick s) (chat_id_of m)
                    "ℹ️ Вы не подписаны на обновления." = None ->
       fst (V2.stop_updates w m s) = Ok tt)
   /\ (forall err,
          send_message w (tick s) (chat_id_of m)
                       "ℹ️ Вы не подписаны на обновления." = Some err ->
          fst (V2.stop_updates w m s) = Raise (Exn ApiException err)))
  /\
  (forall city_message t report,
      chat_id_of city_message = chat_id_of m ->
      text_of city_message = Some t ->
      fetch w (tick s) (PyStr.strip t) V2.DEFAULT_LANGUAGE = Ok report ->
      let s1 := snd (V2.process_city_input w city_message s) in
      users_mem (chat_id_of m) (users s1) = true
      /\ users_get (chat_id_of m) (users (snd (V2.stop_updates w m s1))) = None)
  /\
  (* resultv1.py *)
  (users_mem (chat_id_of m) (users s) = true ->
   V1.stop w m s
   = bot_send_message w (chat_id_of m)
       "Вы отменили подписку на обновления погоды." None
       (with_users (users_del (chat_id_of m) (users s)) s)
   /\ users_get (chat_id_of m) (users (snd (V1.stop w m s))) = None)
  /\
  (users_mem (chat_id_of m) (users s) = false ->
   V1.stop w m s
   = bot_send_message w (chat_id_of m) "Вы не подписаны на обновления." None s
   /\ users (snd (V1.stop w m s)) = users s
   /\ (send_message w (tick s) (chat_id_of m)
                    "Вы не подписаны на обновления." = None ->
       fst (V1.stop w m s) = Ok tt)
   /\ (forall err,
          send_message w (tick s) (chat_id_of m)
                       "Вы не подписаны на обновления." = Some err ->
          fst (V1.stop w m s) = Raise (Exn ApiException err)))
  /\
  (forall city_message t,
      chat_id_of city_message = chat_id_of m ->
      text_of city_message = Some t ->
      send_message w (tick s) (chat_id_of m)
                   ("Отлично! Теперь я буду присылать погоду для города "
                      ++ PyStr.strip t ++ " каждый час.") = None ->
      let s1 := snd (V1.get_city w city_message s) in
      users_mem (chat_id_of m) (users s1) = true
      /\ users_get (chat_id_of m) (users (snd (V1.stop w m s1))) = None)
  /\
  (* resultv2.py, through the routing of the two messages *)
  (forall city_message t report,
      chat_id_of city_message = chat_id_of m ->
      text_of city_message = Some t ->
      text_of m = Some "/stop" ->
      next_get (chat_id_of m) (next_step s) = Some [cb_process_city_input] ->
      fetch w (tick s) (PyStr.strip t) V2.DEFAULT_LANGUAGE = Ok report ->
      let s1 := snd (V2.process_new_message w city_message s) in
      conversation_state s1 (chat_id_of m) = Idle
      /\ V2.process_new_message w m s1 = V2.stop_updates w m s1
      /\ users_get (chat_id_of m)
                   (users (snd (V2.process_new_message w m s1))) = None).
Proof.
  assert (P2 : forall s0, users_mem (chat_id_of m) (users s0) = true ->
     V2.stop_updates w m s0
     = bot_send_message w (chat_id_of m)
         "🔴 Вы отменили подписку на обновления погоды." None
         (with_users (users_del (chat_id_of m) (users s0)) s0)
     /\ users_get (chat_id_of m) (users (snd (V2.stop_updates w m s0))) = None).
  { intros s0 Mem.
    assert (E : V2.stop_updates w m s0
                = bot_send_message w (chat_id_of m)
                    "🔴 Вы отменили подписку на обновления погоды." None
                    (with_users (users_del (chat_id_of m) (users s0)) s0)).
    { unfold V2.stop_updates, bind, get_users, put_users. now rewrite Mem. }
    split; [exact E|].
    rewrite E, users_bot_send_message. apply users_get_del_same. }
  assert (P1 : forall s0, users_mem (chat_id_of m) (users s0) = true ->
     V1.stop w m s0
     = bot_send_message w (chat_id_of m)
         "Вы отменили подписку на обновления погоды." None
         (with_users (users_del (chat_id_of m) (users s0)) s0)
     /\ users_get (chat_id_of m) (users (snd (V1.stop w m s0))) = None).
  { intros s0 Mem.
    assert (E : V1.stop w m s0
                = bot_send_message w (chat_id_of m)
                    "Вы отменили подписку на обновления погоды." None
                    (with_users (users_del (chat_id_of m) (users s0)) s0)).
    { unfold V1.stop, bind, get_users, put_users. now rewrite Mem. }
    split; [exact E|].
    rewrite E, users_bot_send_message. apply users_get_del_same. }
  split; [apply P2|]. split; [|split; [|split; [apply P1|split; [|split]]]].
  - intros Mem.
    assert (E : V2.stop_updates w m s
                = bot_send_message w (chat_id_of m)
                    "ℹ️ Вы не подписаны на обновления." None s).
    { unfold V2.stop_updates, bind, get_users. now rewrite Mem. }
    split; [exact E|]. rewrite E. split; [apply users_bot_send_message|].
    split; [intros A|intros err A]; unfold bot_send_message; now rewrite A.
  - intros cm t report Ch T F s1.
    assert (Mem : users_mem (chat_id_of m) (users s1) = true).
    { unfold s1. rewrite (process_city_input_accepted w cm t report s T F).
      rewrite Ch. unfold users_mem, Dict.mem.
      fold (users_get (chat_id_of m)). now rewrite users_get_set_same. }
    split; [exact Mem|]. now apply P2.
  - intros Mem.
    assert (E : V1.stop w m s
                = bot_send_message w (chat_id_of m)
                    "Вы не подписаны на обновления." None s).
    { unfold V1.stop, bind, get_users. now rewrite Mem. }
    split; [exact E|]. rewrite E. split; [apply users_bot_send_message|].
    split; [intros A|intros err A]; unfold bot_send_message; now rewrite A.
  - intros cm t Ch T A s1.
    assert (Mem : users_mem (chat_id_of m) (users s1) = true).
    { unfold s1, V1.get_city, bind, lift, text_method, bot_send_message,
        get_users, put_users.
      rewrite T, Ch, A. cbn [snd users with_users record].
      unfold users_mem, Dict.mem.
      fold (users_get (chat_id_of m)). now rewrite users_get_set_same. }
    split; [exact Mem|]. now apply P1.
  - intros cm t report Ch T Tm N F s1.
    rewrite <- Ch in N.
    pose proof (route_to_city_input w cm s N) as R.
    set (s0 := with_next (next_del (chat_id_of cm) (next_step s)) s) in R.
    pose proof (process_city_input_accepted w cm t report s0 T F) as U.
    pose proof (process_city_input_accepted_next w cm t report s0 T F) as Nx.
    assert (U1 : users s1
                 = users_set (chat_id_of cm)
                     [("city", PyStr.strip t); ("language", V2.DEFAULT_LANGUAGE)]
                     (users s)).
    { unfold s1. rewrite R. unfold bind.
      destruct (V2.process_city_input w cm s0) as [[[]|e] s']; exact U. }
    assert (N1 : next_step s1 = next_del (chat_id_of m) (next_step s)).
    { unfold s1. rewrite R. unfold bind. rewrite <- Ch.
      destruct (V2.process_city_input w cm s0) as [[[]|e] s']; exact Nx. }
    assert (G : next_get (chat_id_of m) (next_step s1) = None)
      by (rewrite N1; apply next_get_del_same).
    assert (E : V2.process_new_message w m s1 = V2.stop_updates w m s1).
    { unfold V2.process_new_message. rewrite G. unfold V2.route, command_in.
      rewrite Tm. reflexivity. }
    split; [unfold conversation_state; now rewrite G|].
    split; [exact E|].
    rewrite E. apply P2.
    unfold users_mem, Dict.mem. fold (users_get (chat_id_of m)).
    now rewrite U1, Ch, users_get_set_same.
Qed.

Lemma stop_unsubscribes_witness :
  users_get 7 (users (snd (V2.stop_updates
                             Sample.fine (Sample.msg 7 "/stop")
                             (Sample.subscribed
                                [(7%Z, [("city", "Paris"); ("language", "ru")])]))))
  = None
  /\ fst (V2.stop_updates Sample.fine (Sample.msg 7 "/stop") Sample.empty)
     = Ok tt.
Proof.
  split.
  - exact (proj2 (proj1 (stop_unsubscribes
                           Sample.fine (Sample.msg 7 "/stop")
                           (Sample.subscribed
                              [(7%Z, [("city", "Paris"); ("language", "ru")])]))
                        eq_refl)).
  - exact (proj1 (proj2 (proj2 (proj1 (proj2
             (stop_unsubscribes Sample.fine (Sample.msg 7 "/stop")
                                Sample.empty)) eq_refl))) eq_refl).
Defined.

(** C7 as stated fails: [/stop] can raise.  The transport is down and a
    chat that is not in [users] sends [/stop]: the absent key raises
    nothing and [users] is left as it is, but the "not subscribed" text is
    refused and the exception of [bot.send_message] leaves the handler, in
    both programs and also through the routing.  For a chat that has a
    record, the record is removed and the refused confirmation raises. *)
Lemma stop_unsubscribes_counterexample :
  let w := Sample.transport_down in
  let m := Sample.msg 7 "/stop" in
  let refused := Raise (Exn ApiException "Bad Gateway") in
  users_mem 7 (users Sample.empty) = false
  /\ V2.stop_updates w m Sample.empty
     = (refused,
        extend [Send 7 "ℹ️ Вы не подписаны на обновления." None false]
               Sample.empty)
  /\ V2.process_new_message w m Sample.empty = V2.stop_updates w m Sample.empty
  /\ V1.stop w m Sample.empty
     = (refused,
        extend [Send 7 "Вы не подписаны на обновления." None false]
               Sample.empty)
  /\ V1.process_new_message w m Sample.empty = V1.stop w m Sample.empty
  /\ (let s := Sample.subscribed [(7%Z, [("city", "Paris"); ("language", "ru")])] in
      fst (V2.stop_updates w m s) = refused
      /\ users (snd (V2.stop_updates w m s)) = []).
Proof. vm_compute. repeat split; reflexivity. Qed.

(** The scenario of the specification: [/start], a city, [/stop] twice. *)
Example stop_twice :
  let s := Sample.feed (V2.process_new_message Sample.fine)
                       [Sample.msg 7 "/start"; Sample.msg 7 "Paris";
                        Sample.msg 7 "/stop"; Sample.msg 7 "/stop"]
                       Sample.empty in
  users s = []
  /\ skipn 4 (shown_to 7 (trace s))
     = ["🔴 Вы отменили подписку на обновления погоды.";
        "ℹ️ Вы не подписаны на обновления."].
Proof. vm_compute. split; reflexivity. Qed.

(** ** C8: two broadcasts in a row *)

Lemma v2_broadcast_since w s :
  users (snd (V2.send_updates_to_all_users w s)) = users s
  /\ urls (since s (snd (V2.send_updates_to_all_users w s)))
     = flat_map (fetch_of w) (users s)
  /\ (stable_provider w ->
      sent_to (since s (snd (V2.send_updates_to_all_users w s)))
      = flat_map (attempt_of w) (users s)).
Proof.
  destruct (send_updates_to_all_users_run w s) as (evs & E & U & _ & S).
  rewrite E. cbn [snd]. rewrite since_extend, urls_logs_around,
    sent_to_logs_around.
  repeat split; auto.
Qed.

Lemma v1_broadcast_since w s :
  V1.send_updates_to_all_users w s
  = (fst (v1_loop w (tick s) (users s)),
     extend (snd (v1_loop w (tick s) (users s))) s).
Proof.
  unfold V1.send_updates_to_all_users, bind, get_users.
  apply v1_for_each_user_eq.
Qed.


Lemma stable_fine :
  stable_provider Sample.fine /\ stable_translation Sample.fine
  /\ stable_transport Sample.fine.
Proof. repeat split; intros; reflexivity. Qed.



(** ** C10: a registration resets the language *)

(** The three commands that ask for a city register [process_city_input]
    as the next step, once their prompts have been sent. *)
Lemma asks_for_city w chat command s :
  In command ["/start"; "/help"; "/change"] ->
  next_get chat (next_step s) = None ->
  (forall t text, send_message w t chat text = None) ->
  next_get chat
    (next_step (snd (V2.process_new_message
                       w {| chat_id_of := chat; text_of := Some command |} s)))
  = Some [cb_process_city_input].
Proof.
  intros I N A. unfold V2.process_new_message. cbn [chat_id_of]. rewrite N.
  destruct I as [<-|[<-|[<-|[]]]].
  - unfold V2.route.
    change (command_in {| chat_id_of := chat; text_of := Some "/start" |}
                       ["start"; "help"]) with true.
    cbv iota. unfold V2.send_welcome, bind, bot_send_message. cbn [chat_id_of].
    rewrite A. rewrite A. unfold register_next_step_handler.
    cbn [next_step record with_next snd]. rewrite N.
    apply next_get_set_same.
  - unfold V2.route.
    change (command_in {| chat_id_of := chat; text_of := Some "/help" |}
                       ["start"; "help"]) with true.
    cbv iota. unfold V2.send_welcome, bind, bot_send_message. cbn [chat_id_of].
    rewrite A. rewrite A. unfold register_next_step_handler.
    cbn [next_step record with_next snd]. rewrite N.
    apply next_get_set_same.
  - unfold V2.route.
    change (command_in {| chat_id_of := chat; text_of := Some "/change" |}
                       ["start"; "help"]) with false.
    change (command_in {| chat_id_of := chat; text_of := Some "/change" |}
                       ["stop"]) with false.
    change (command_in {| chat_id_of := chat; text_of := Some "/change" |}
                       ["now"]) with false.
    change (command_in {| chat_id_of := chat; text_of := Some "/change" |}
                       ["change"]) with true.
    cbv iota. unfold V2.change_city, bind, bot_send_message. cbn [chat_id_of].
    rewrite A. unfold register_next_step_handler.
    cbn [next_step record with_next snd]. rewrite N.
    apply next_get_set_same.
Qed.

(** C10.  resultv2.py: when the chat is waiting for its city and the
    validating fetch of the text it sends returns, the record of the chat
    becomes the stripped text with the language "ru", whatever record and
    language the chat had; and [/start], [/help] and [/change] are the
    commands that put a chat in that waiting state. *)
Theorem registration_resets_language
        (w : World) (m : message) (t report : string) (s : state) :
  text_of m = Some t ->
  fetch w (tick s) (PyStr.strip t) V2.DEFAULT_LANGUAGE = Ok report ->
  users_get (chat_id_of m) (users (snd (V2.process_city_input w m s)))
  = Some [("city", PyStr.strip t); ("language", "ru")]
  /\
  (next_get (chat_id_of m) (next_step s) = Some [cb_process_city_input] ->
   users_get (chat_id_of m) (users (snd (V2.process_new_message w m s)))
   = Some [("city", PyStr.strip t); ("language", "ru")])
  /\
  (forall command s0,
      In command ["/start"; "/help"; "/change"] ->
      next_get (chat_id_of m) (next_step s0) = None ->
      (forall t' text, send_message w t' (chat_id_of m) text = None) ->
      next_get (chat_id_of m)
        (next_step (snd (V2.process_new_message
                           w {| chat_id_of := chat_id_of m;
                                text_of := Some command |} s0)))
      = Some [cb_process_city_input]).
Proof.
  intros T F. split; [|split].
  - rewrite (process_city_input_accepted w m t report s T F).
    apply users_get_set_same.
  - intros N. rewrite (route_to_city_input w m s N). unfold bind.
    pose proof (process_city_input_accepted w m t report
                  (with_next (next_del (chat_id_of m) (next_step s)) s) T F)
      as U.
    destruct (V2.process_city_input w m _) as [[[]|e] s'];
      unfold ret; cbn [snd] in *; rewrite U; apply users_get_set_same.
  - intros command s0. apply asks_for_city.
Qed.

Lemma registration_resets_language_witness :
  users_get 7 (users (snd (V2.process_new_message
                             Sample.fine (Sample.msg 7 " Rome ")
                             (Sample.asked_city
                                cb_process_city_input 7
                                [(7%Z, [("city", "Paris"); ("language", "en")])]))))
  = Some [("city", "Rome"); ("language", "ru")].
Proof.
  exact (proj1 (proj2
           (registration_resets_language
              Sample.fine (Sample.msg 7 " Rome ") " Rome "
              ("Погода в городе Rome:" ++ nl
               ++ "🌡 Температура: 12.3°C" ++ nl
               ++ "☁️ Состояние: Light rain" ++ nl
               ++ "💧 Влажность: 81%" ++ nl
               ++ "💨 Скорость ветра: 3.6 м/с")
              (Sample.asked_city cb_process_city_input 7
                 [(7%Z, [("city", "Paris"); ("language", "en")])])
              eq_refl eq_refl)) eq_refl).
Defined.

(* ================================================================== *)
(** * Further properties of the code *)

(** ** [get_weather] of resultv2.py *)

Lemma prefix_append (a b : string) : String.prefix a (a ++ b) = true.
Proof.
  induction a as [|c a IH]; cbn [append String.prefix].
  - now destruct b.
  - destruct (Ascii.ascii_dec c c); [exact IH|congruence].
Qed.

Lemma prefix_append4 (a b c d r : string) :
  String.prefix (a ++ b ++ c ++ d) (a ++ b ++ c ++ d ++ r) = true.
Proof.
  replace (a ++ b ++ c ++ d ++ r) with ((a ++ b ++ c ++ d) ++ r)
    by (now rewrite !append_assoc).
  apply prefix_append.
Qed.



(** X2.  A body with the status 200 whose [main] is not an object makes
    [get_weather] raise a [TypeError]: neither [except] clause converts it,
    so it leaves [get_weather] as it is, not as a [WeatherServiceError]. *)
Theorem get_weather_type_error (w : World) (city language : string)
        (s : state) (data cod main : json) :
  requests_get w (tick s) (V2.weather_url w city language) = Ok data ->
  Py.get data "cod" JNull = Ok cod ->
  Py.eq_200 cod = true ->
  Py.item data "main" = Ok main ->
  (forall d, main <> JDict d) ->
  exists msg,
    V2.get_weather w city language s
    = (Raise (Exn TypeError msg),
       extend [Get (V2.weather_url w city language)] s).
Proof.
  intros R C E Mn N. rewrite get_weather_eq. unfold fetch, V2.read_report.
  rewrite R, C. cbn [rbind]. rewrite E. cbn [negb]. rewrite Mn. cbn [rbind].
  destruct main; try (eexists; reflexivity).
  exfalso. now apply (N d).
Qed.

Lemma get_weather_type_error_witness :
  exists msg,
    V2.get_weather Sample.hollow_world "Paris" "ru" Sample.empty
    = (Raise (Exn TypeError msg),
       extend [Get (V2.weather_url Sample.hollow_world "Paris" "ru")]
              Sample.empty).
Proof.
  apply (get_weather_type_error
           Sample.hollow_world "Paris" "ru" Sample.empty
           (JDict [("cod", JInt 200); ("main", JNull)]) (JInt 200) JNull);
    try reflexivity.
  intros d. discriminate.
Defined.

(** X3.  [get_weather] returns a report only for a body whose [cod] equals
    200, and the report then begins with the line naming the city it was
    asked for. *)
Theorem report_needs_200 (w : World) (city language : string) (s : state)
        (report : string) :
  fst (V2.get_weather w city language s) = Ok report ->
  exists data cod,
    requests_get w (tick s) (V2.weather_url w city language) = Ok data
    /\ Py.get data "cod" JNull = Ok cod
    /\ Py.eq_200 cod = true
    /\ String.prefix ("Погода в городе " ++ city ++ ":" ++ nl) report = true.
Proof.
  rewrite get_weather_eq. cbn [fst]. unfold fetch.
  destruct (requests_get w (tick s) (V2.weather_url w city language))
    as [data|e0] eqn:R; [|discriminate].
  unfold V2.read_report.
  destruct (Py.get data "cod" JNull) as [cod|e0] eqn:C; cbn [rbind];
    [|discriminate].
  destruct (Py.eq_200 cod) eqn:E; cbn [negb].
  - destruct (Py.item data "main") as [main|?]; cbn [rbind]; [|discriminate].
    destruct (Py.item main "temp") as [temperature|?]; cbn [rbind];
      [|discriminate].
    destruct (Py.item data "weather") as [weather|?]; cbn [rbind];
      [|discriminate].
    destruct (Py.item0 weather) as [weather0|?]; cbn [rbind]; [|discriminate].
    destruct (Py.item weather0 "description") as [description|?]; cbn [rbind];
      [|discriminate].
    destruct (Py.item main "humidity") as [humidity|?]; cbn [rbind];
      [|discriminate].
    destruct (Py.item data "wind") as [wind|?]; cbn [rbind]; [|discriminate].
    destruct (Py.item wind "speed") as [wind_speed|?]; cbn [rbind];
      [|discriminate].
    destruct (Py.capitalize description) as [capitalized|?]; cbn [rbind];
      [|discriminate].
    intros H. exists data, cod. split; [reflexivity|]. split; [exact C|].
    split; [exact E|].
    assert (H' : "Погода в городе " ++ city ++ ":" ++ nl
                   ++ "🌡 Температура: " ++ Py.str temperature ++ "°C" ++ nl
                   ++ "☁️ Состояние: " ++ capitalized ++ nl
                   ++ "💧 Влажность: " ++ Py.str humidity ++ "%" ++ nl
                   ++ "💨 Скорость ветра: " ++ Py.str wind_speed ++ " м/с"
                 = report) by congruence.
    rewrite <- H'.
    apply (prefix_append4 "Погода в городе " city ":" nl).
  - destruct (Py.get data "message" (JStr "Unknown error")); discriminate.
Qed.

Lemma report_needs_200_witness :
  exists data cod,
    requests_get Sample.fine 0 (V2.weather_url Sample.fine "Paris" "ru") = Ok data
    /\ Py.get data "cod" JNull = Ok cod
    /\ Py.eq_200 cod = true
    /\ String.prefix ("Погода в городе Paris:" ++ nl)
                     ("Погода в городе Paris:" ++ nl
                      ++ "🌡 Температура: 12.3°C" ++ nl
                      ++ "☁️ Состояние: Light rain" ++ nl
                      ++ "💧 Влажность: 81%" ++ nl
                      ++ "💨 Скорость ветра: 3.6 м/с") = true.
Proof.
  exact (report_needs_200 Sample.fine "Paris" "ru" Sample.empty _ eq_refl).
Defined.

(** ** [send_weather_update] and the handlers that call it *)

(** X4.  [send_weather_update] never changes [users] or the pending
    handlers, makes exactly one request, calls [bot.send_message] at most
    once and only for its chat, and can only raise what [bot.send_message]
    raised when the line telling of a [WeatherServiceError] could not be
    sent. *)
Theorem send_weather_update_effects
        (w : World) (chat : Z) (city language : string) (s : state) :
  users (snd (V2.send_weather_update w chat city language s)) = users s
  /\ next_step (snd (V2.send_weather_update w chat city language s))
     = next_step s
  /\ urls (since s (snd (V2.send_weather_update w chat city language s)))
     = [V2.weather_url w city language]
  /\ (sent_to (since s (snd (V2.send_weather_update w chat city language s)))
      = []
      \/ sent_to (since s (snd (V2.send_weather_update w chat city language s)))
         = [chat])
  /\ (forall e,
         fst (V2.send_weather_update w chat city language s) = Raise e ->
         class_of e = ApiException
         /\ exists e', fetch w (tick s) city language = Raise e'
                       /\ is_class WeatherServiceError e' = true).
Proof.
  rewrite send_weather_update_eq. unfold send_weather_update_nf. cbv zeta.
  destruct (fetch w (tick s) city language) as [weather|e0].
  - destruct (send_message w (S (tick s)) chat weather); norm; cbn [fst snd];
      rewrite since_extend;
      (split; [reflexivity|split; [reflexivity|split; [reflexivity|split]]]);
      [right; reflexivity|discriminate|right; reflexivity|discriminate].
  - destruct (is_class WeatherServiceError e0) eqn:C.
    + destruct (send_message w (S (tick s)) chat (unavailable city e0));
        norm; cbn [fst snd]; rewrite since_extend;
        (split; [reflexivity|split; [reflexivity|split; [reflexivity|split]]]).
      * right; reflexivity.
      * intros e [= <-]. split; [reflexivity|]. eauto.
      * right; reflexivity.
      * discriminate.
    + norm. cbn [fst snd]. rewrite since_extend.
      split; [reflexivity|split; [reflexivity|split; [reflexivity|split]]].
      * left; reflexivity.
      * discriminate.
Qed.

Lemma send_weather_update_effects_witness :
  class_of (Exn ApiException "Bad Gateway") = ApiException.
Proof.
  exact (proj1 (proj2 (proj2 (proj2 (proj2
           (send_weather_update_effects
              {| WEATHER_API_KEY := "k";
                 requests_get := fun _ _ => Ok Sample.not_found;
                 translate := fun _ _ _ _ => Ok "";
                 send_message := fun _ _ _ => Some "Bad Gateway" |}
              7 "Atlantis" "ru" Sample.empty))))
           (Exn ApiException "Bad Gateway") eq_refl)).
Defined.

Lemma urls_cons_send chat text mk delivered evs :
  urls (Send chat text mk delivered :: evs) = urls evs.
Proof. reflexivity. Qed.

Lemma send_current_weather_run w m s :
  exists r evs,
    V2.send_current_weather w m s = (r, extend evs s)
    /\ urls evs
       = match users_get (chat_id_of m) (users s) with
         | Some info =>
           match info_get "city" info,
                 send_message w (tick s) (chat_id_of m) please_wait with
           | Some city, None => [V2.weather_url w city (language_of info)]
           | _, _ => []
           end
         | None => []
         end.
Proof.
  unfold V2.send_current_weather, bind at 1, get_users.
  destruct (users_get (chat_id_of m) (users s)) as [info|].
  - unfold try_except, bind at 1, bot_send_message at 1. fold please_wait.
    destruct (send_message w (tick s) (chat_id_of m) please_wait) as [err|].
    + unfold bind, logger_error, bot_send_message.
      destruct (send_message w _ (chat_id_of m) _); norm;
        do 2 eexists; (split; [reflexivity|]);
          destruct (info_get "city" info); reflexivity.
    + unfold bind at 1, lift, info_item.
      destruct (info_get "city" info) as [city|].
      * fold (language_of info).
        destruct (send_weather_update_run
                    w (chat_id_of m) city (language_of info)
                    (record (Send (chat_id_of m) please_wait None true) s))
          as (r & evs & E & U & _).
        rewrite E. destruct r as [[]|e].
        -- norm. do 2 eexists. split; [reflexivity|].
           now rewrite urls_cons_send, U.
        -- unfold bind, logger_error, bot_send_message.
           destruct (send_message w _ (chat_id_of m) _); norm;
             do 2 eexists; (split; [reflexivity|]);
               rewrite urls_cons_send, urls_app, U; reflexivity.
      * unfold bind, logger_error, bot_send_message.
        destruct (send_message w _ (chat_id_of m) _); norm;
          do 2 eexists; (split; reflexivity).
  - unfold bot_send_message.
    destruct (send_message w (tick s) (chat_id_of m) _); norm;
      do 2 eexists; (split; reflexivity).
Qed.

Lemma users_send_current_weather w m s :
  users (snd (V2.send_current_weather w m s)) = users s
  /\ next_step (snd (V2.send_current_weather w m s)) = next_step s.
Proof.
  destruct (send_current_weather_run w m s) as (r & evs & E & _).
  rewrite E. split; reflexivity.
Qed.

Lemma urls_send_current_weather w m s :
  urls (since s (snd (V2.send_current_weather w m s)))
  = match users_get (chat_id_of m) (users s) with
    | Some info =>
      match info_get "city" info,
            send_message w (tick s) (chat_id_of m) please_wait with
      | Some city, None => [V2.weather_url w city (language_of info)]
      | _, _ => []
      end
    | None => []
    end.
Proof.
  destruct (send_current_weather_run w m s) as (r & evs & E & U).
  rewrite E. cbn [snd]. now rewrite since_extend.
Qed.

(** X5.  [/now] never changes [users] or the pending handlers, and makes a
    weather request only for a chat that has a record with a city and after
    [bot.send_message] has taken "please wait"; the request is then the one
    for that city in the language of the record. *)
Theorem now_requests (w : World) (m : message) (s : state) :
  users (snd (V2.send_current_weather w m s)) = users s
  /\ next_step (snd (V2.send_current_weather w m s)) = next_step s
  /\ urls (since s (snd (V2.send_current_weather w m s)))
     = match users_get (chat_id_of m) (users s) with
       | Some info =>
         match info_get "city" info,
               send_message w (tick s) (chat_id_of m) please_wait with
         | Some city, None => [V2.weather_url w city (language_of info)]
         | _, _ => []
         end
       | None => []
       end.
Proof.
  destruct (users_send_current_weather w m s) as [U N].
  split; [exact U|]. split; [exact N|]. apply urls_send_current_weather.
Qed.

(** ** [process_city_input]: the two requests, a message without text *)

(** X6.  A registration that goes through makes two requests.  The report
    of the first, validating one is dropped; what the chat is sent after
    the confirmation is the report of the second request, made by
    [send_weather_update] two events later. *)
Theorem registration_sends_second_report
        (w : World) (m : message) (t first second : string) (s : state) :
  text_of m = Some t ->
  fetch w (tick s) (PyStr.strip t) V2.DEFAULT_LANGUAGE = Ok first ->
  send_message w (S (tick s)) (chat_id_of m)
               (V2.city_confirmation (PyStr.strip t)) = None ->
  fetch w (S (S (tick s))) (PyStr.strip t) V2.DEFAULT_LANGUAGE = Ok second ->
  send_message w (S (S (S (tick s)))) (chat_id_of m) second = None ->
  V2.process_city_input w m s
  = (Ok tt,
     extend [Get (city_url w t);
             Send (chat_id_of m) (V2.city_confirmation (PyStr.strip t)) None true;
             Get (city_url w t);
             Send (chat_id_of m) second None true;
             Log INFO ("Weather update sent to " ++ PyStr.of_Z (chat_id_of m)
                         ++ " for " ++ PyStr.strip t)]
            (with_users
               (users_set (chat_id_of m)
                          [("city", PyStr.strip t);
                           ("language", V2.DEFAULT_LANGUAGE)] (users s))
               s)).
Proof.
  intros T F1 A1 F2 A2.
  unfold V2.process_city_input, try_except, bind, lift, text_method,
    get_users, put_users.
  rewrite T, get_weather_eq, F1. cbn [users record].
  unfold bot_send_message at 1.
  change (tick (with_users _ (record ?e s))) with (tick (record e s)).
  rewrite tick_record, A1.
  rewrite send_weather_update_eq. unfold send_weather_update_nf. cbv zeta.
  change (tick (record ?e (with_users ?u (record ?e' s))))
    with (tick (record e (record e' s))).
  rewrite !tick_record, F2, A2. unfold city_url. now norm.
Qed.

Lemma registration_sends_second_report_witness :
  shown_to 7 (trace (snd (V2.process_city_input
                            Sample.warming (Sample.msg 7 "Paris") Sample.empty)))
  = [V2.city_confirmation "Paris";
     "Погода в городе Paris:" ++ nl
     ++ "🌡 Температура: 15.0°C" ++ nl
     ++ "☁️ Состояние: Clear sky" ++ nl
     ++ "💧 Влажность: 70%" ++ nl
     ++ "💨 Скорость ветра: 2.1 м/с"].
Proof.
  rewrite (registration_sends_second_report
             Sample.warming (Sample.msg 7 "Paris") "Paris"
             ("Погода в городе Paris:" ++ nl
              ++ "🌡 Температура: 12.3°C" ++ nl
              ++ "☁️ Состояние: Light rain" ++ nl
              ++ "💧 Влажность: 81%" ++ nl
              ++ "💨 Скорость ветра: 3.6 м/с")
             ("Погода в городе Paris:" ++ nl
              ++ "🌡 Температура: 15.0°C" ++ nl
              ++ "☁️ Состояние: Clear sky" ++ nl
              ++ "💧 Влажность: 70%" ++ nl
              ++ "💨 Скорость ветра: 2.1 м/с")
             Sample.empty eq_refl eq_refl eq_refl eq_refl eq_refl).
  reflexivity.
Defined.

Lemma process_city_input_no_text w m s :
  text_of m = None ->
  V2.process_city_input w m s
  = bot_send_message w (chat_id_of m) apology None
      (record (Log ERROR ("Error processing city input: "
                            ++ "'NoneType' object has no attribute 'strip'"))
              s).
Proof.
  intros T.
  unfold V2.process_city_input, try_except, bind at 1, lift, text_method.
  now rewrite T.
Qed.

(** X7.  A message without text (a photo) sent while the bot waits for a
    city: the [AttributeError] is logged, the chat is sent the apology, no
    request is made, [users] is unchanged, and [process_city_input] is not
    registered again, so the chat is back to Idle. *)
Theorem city_without_text (w : World) (m : message) (s : state) :
  text_of m = None ->
  next_get (chat_id_of m) (next_step s) = Some [cb_process_city_input] ->
  users (snd (V2.process_new_message w m s)) = users s
  /\ conversation_state (snd (V2.process_new_message w m s)) (chat_id_of m)
     = Idle
  /\ exists delivered,
      since s (snd (V2.process_new_message w m s))
      = [Log ERROR ("Error processing city input: "
                      ++ "'NoneType' object has no attribute 'strip'");
         Send (chat_id_of m) apology None delivered].
Proof.
  intros T N. rewrite (route_to_city_input w m s N). unfold bind.
  rewrite (process_city_input_no_text w m _ T).
  unfold bot_send_message.
  destruct (send_message w _ (chat_id_of m) apology); cbn [snd ret];
    (split; [reflexivity|split];
     [unfold conversation_state; cbn [next_step record with_next];
      now rewrite next_get_del_same
     |eexists; apply since_trace; cbn [trace record with_next];
      rewrite <- app_assoc; reflexivity]).
Qed.

Lemma city_without_text_witness :
  conversation_state
    (snd (V2.process_new_message
            Sample.fine (Sample.photo 7)
            (Sample.asked_city cb_process_city_input 7 []))) 7
  = Idle.
Proof.
  exact (proj1 (proj2 (city_without_text
                         Sample.fine (Sample.photo 7)
                         (Sample.asked_city cb_process_city_input 7 [])
                         eq_refl eq_refl))).
Defined.

(** ** More on dictionaries *)

Section DictKeys.
Variables (K V : Type) (eqb : K -> K -> bool).
Hypothesis eqb_spec : forall a b, reflect (a = b) (eqb a b).

Lemma dict_keys_set_present k (v v0 : V) d :
Dict.get eqb k d = Some v0 ->
map fst (Dict.set eqb k v d) = map fst d.
Proof.
induction d as [|[k' v'] d IH]; simpl; [discriminate|].
destruct (eqb_spec k k'); simpl.
- now subst.
- intros G. now rewrite IH.
Qed.

Lemma dict_keys_set_absent k (v : V) d :
Dict.get eqb k d = None ->
map fst (Dict.set eqb k v d) = (map fst d ++ [k])%list.
Proof.
induction d as [|[k' v'] d IH]; simpl; [reflexivity|].
destruct (eqb_spec k k'); simpl; [discriminate|].
intros G. now rewrite IH.
Qed.

Lemma dict_get_in k (v : V) d : Dict.get eqb k d = Some v -> In (k, v) d.
Proof.
induction d as [|[k' v'] d IH]; simpl; [discriminate|].
destruct (eqb_spec k k').
- intros [= <-]. subst. now left.
- intros G. right. now apply IH.
Qed.

Lemma dict_get_none k (d : list (K * V)) :
Dict.get eqb k d = None <-> ~ In k (map fst d).
Proof.
induction d as [|[k' v'] d IH]; simpl.
- split; auto.
- destruct (eqb_spec k k').
  + split; [discriminate|]. intros N. exfalso. apply N. now left.
  + rewrite IH. split.
    * intros N [E|I]; [congruence|auto].
    * intros N I. apply N. now right.
Qed.

Lemma dict_keys_del k (d : list (K * V)) :
map fst (Dict.del eqb k d) = filter (fun k' => negb (eqb k k')) (map fst d).
Proof.
unfold Dict.del.
induction d as [|[k' v'] d IH]; simpl; [reflexivity|].
destruct (eqb k k'); simpl; now rewrite IH.
Qed.

Lemma dict_set_forall (P : K * V -> Prop) k (v : V) d :
P (k, v) -> Forall P d -> Forall P (Dict.set eqb k v d).
Proof.
intros Pk F. induction F as [|[k' v'] d Px F IH]; simpl.
- now constructor.
- destruct (eqb k k'); constructor; auto.
Qed.

Lemma dict_del_forall (P : K * V -> Prop) k (d : list (K * V)) :
Forall P d -> Forall P (Dict.del eqb k d).
Proof.
unfold Dict.del. intros F. apply Forall_forall. intros x I.
apply filter_In in I. destruct I as [I _].
now apply (proj1 (Forall_forall P d) F).
Qed.

Lemma dict_set_nodup k (v : V) d :
NoDup (map fst d) -> NoDup (map fst (Dict.set eqb k v d)).
Proof.
intros N. destruct (Dict.get eqb k d) as [v0|] eqn:G.
- now rewrite (dict_keys_set_present k v v0 d G).
- rewrite (dict_keys_set_absent k v d G).
  apply NoDup_app; auto.
  + constructor; [intros []|constructor].
  + intros x I [<-|[]]. now apply (proj1 (dict_get_none k d) G).
Qed.

Lemma dict_del_nodup k (d : list (K * V)) :
NoDup (map fst d) -> NoDup (map fst (Dict.del eqb k d)).
Proof. rewrite dict_keys_del. apply NoDup_filter. Qed.
End DictKeys.

(** ** [process_language_selection] *)

(** The two languages of [lang_map]. *)
Lemma lang_map_values selected lang :
  info_get selected V2.lang_map = Some lang -> lang = "ru" \/ lang = "en".
Proof.
  unfold info_get, V2.lang_map. cbn [Dict.get].
  destruct (String.eqb selected "русский"); [intros [= <-]; now left|].
  destruct (String.eqb selected "english"); [intros [= <-]; now right|].
  discriminate.
Qed.

(** [process_language_selection], case by case. *)
Lemma process_language_selection_eq w m choice s :
  text_of m = Some choice ->
  V2.process_language_selection w m s
  = match info_get (PyStr.lower choice) V2.lang_map with
    | None => bot_send_message w (chat_id_of m) wrong_choice None s
    | Some lang =>
      match users_get (chat_id_of m) (users s) with
      | None =>
        bot_send_message w (chat_id_of m)
          "Теперь укажите город с помощью /start" None
          (with_users (users_set (chat_id_of m)
                                 [("city", ""); ("language", lang)] (users s)) s)
      | Some info =>
        bot_send_message w (chat_id_of m) (language_changed m)
          (Some ReplyKeyboardRemove)
          (with_users (users_set (chat_id_of m)
                                 (info_set "language" lang info) (users s)) s)
      end
    end.
Proof.
  intros T.
  unfold V2.process_language_selection, bind at 1, lift, text_method.
  rewrite T.
  destruct (info_get (PyStr.lower choice) V2.lang_map) as [lang|];
    [|reflexivity].
  unfold bind at 1, get_users.
  destruct (users_get (chat_id_of m) (users s)); reflexivity.
Qed.

Lemma route_to_language_selection w m s :
  next_get (chat_id_of m) (next_step s) = Some [cb_process_language_selection] ->
  V2.process_new_message w m s
  = bind (V2.process_language_selection w m) (fun _ => ret tt)
         (with_next (next_del (chat_id_of m) (next_step s)) s).
Proof. unfold V2.process_new_message. now intros ->. Qed.

(** X8.  A chat that was shown the language keyboard and answers with
    anything but one of the two languages (whatever the case of the
    letters): [users] is unchanged, the chat is sent the "wrong choice"
    text and nothing else happens; [process_language_selection] is not
    registered again, so the chat is back to Idle and its next message is
    read as a command. *)
Theorem wrong_language_choice (w : World) (m : message) (choice : string)
        (s : state) :
  next_get (chat_id_of m) (next_step s) = Some [cb_process_language_selection] ->
  text_of m = Some choice ->
  info_get (PyStr.lower choice) V2.lang_map = None ->
  users (snd (V2.process_new_message w m s)) = users s
  /\ conversation_state (snd (V2.process_new_message w m s)) (chat_id_of m)
     = Idle
  /\ exists delivered,
      since s (snd (V2.process_new_message w m s))
      = [Send (chat_id_of m) wrong_choice None delivered].
Proof.
  intros N T L. rewrite (route_to_language_selection w m s N). unfold bind.
  rewrite (process_language_selection_eq w m choice _ T), L.
  unfold bot_send_message.
  destruct (send_message w _ (chat_id_of m) wrong_choice); cbn [snd ret];
    (split; [reflexivity|split];
     [unfold conversation_state; cbn [next_step record with_next];
      now rewrite next_get_del_same
     |eexists; apply since_trace; reflexivity]).
Qed.

Lemma wrong_language_choice_witness :
  conversation_state
    (snd (V2.process_new_message
            Sample.fine (Sample.msg 7 "Deutsch")
            (Sample.asked_city cb_process_language_selection 7 []))) 7
  = Idle.
Proof.
  exact (proj1 (proj2 (wrong_language_choice
                         Sample.fine (Sample.msg 7 "Deutsch") "Deutsch"
                         (Sample.asked_city cb_process_language_selection 7 [])
                         eq_refl eq_refl eq_refl))).
Defined.

Lemma language_selection_users w m choice lang info s :
  text_of m = Some choice ->
  info_get (PyStr.lower choice) V2.lang_map = Some lang ->
  users_get (chat_id_of m) (users s) = Some info ->
  users (snd (V2.process_language_selection w m s))
  = users_set (chat_id_of m) (info_set "language" lang info) (users s).
Proof.
  intros T L U.
  rewrite (process_language_selection_eq w m choice s T), L, U.
  now rewrite users_bot_send_message.
Qed.

(** X9.  A valid language choice of a chat that has a record changes the
    language of that record and nothing else: the city of the record stays,
    the other chats keep their records, and the chats stay in the same
    order (the order in which the broadcast serves them).  This holds
    whether or not the confirmation could be sent. *)
Theorem language_choice_keeps_city
        (w : World) (m : message) (choice lang : string) (info : user_info)
        (s : state) :
  text_of m = Some choice ->
  info_get (PyStr.lower choice) V2.lang_map = Some lang ->
  users_get (chat_id_of m) (users s) = Some info ->
  users (snd (V2.process_language_selection w m s))
  = users_set (chat_id_of m) (info_set "language" lang info) (users s)
  /\ users_get (chat_id_of m)
               (users (snd (V2.process_language_selection w m s)))
     = Some (info_set "language" lang info)
  /\ info_get "language" (info_set "language" lang info) = Some lang
  /\ info_get "city" (info_set "language" lang info) = info_get "city" info
  /\ map fst (users (snd (V2.process_language_selection w m s)))
     = map fst (users s)
  /\ (forall other,
         other <> chat_id_of m ->
         users_get other (users (snd (V2.process_language_selection w m s)))
         = users_get other (users s))
  /\ (lang = "ru" \/ lang = "en").
Proof.
  intros T L U.
  rewrite (language_selection_users w m choice lang info s T L U). split; [reflexivity|]. split; [apply users_get_set_same|].
  split; [apply dict_get_set_same, String.eqb_spec|].
  split; [apply dict_get_set_other; [apply String.eqb_spec|discriminate]|].
  split; [apply (dict_keys_set_present _ _ Z.eqb Z.eqb_spec _ _ info), U|].
  split; [|apply (lang_map_values _ _ L)].
  intros other N. apply users_get_set_other. congruence.
Qed.

Lemma language_choice_keeps_city_witness :
  users (snd (V2.process_language_selection
                Sample.fine (Sample.msg 2 "ENGLISH")
                (Sample.subscribed Sample.three_cities_ru)))
  = [(1%Z, [("city", "Paris"); ("language", "ru")]);
     (2%Z, [("city", "Berlin"); ("language", "en")]);
     (3%Z, [("city", "Rome"); ("language", "ru")])].
Proof.
  exact (proj1 (language_choice_keeps_city
                  Sample.fine (Sample.msg 2 "ENGLISH") "ENGLISH" "en"
                  [("city", "Berlin"); ("language", "ru")]
                  (Sample.subscribed Sample.three_cities_ru)
                  eq_refl eq_refl eq_refl)).
Defined.

(** X10.  A language choice takes effect at once: for a chat with a city,
    the next [/now] (once "please wait" has been sent) asks the provider
    for that city in the chosen language, and so does the next
    broadcast. *)
Theorem language_takes_effect
        (w : World) (m : message) (choice lang city : string)
        (info : user_info) (s : state) :
  text_of m = Some choice ->
  info_get (PyStr.lower choice) V2.lang_map = Some lang ->
  users_get (chat_id_of m) (users s) = Some info ->
  info_get "city" info = Some city ->
  (send_message w (tick (snd (V2.process_language_selection w m s)))
                (chat_id_of m) please_wait = None ->
   urls (since (snd (V2.process_language_selection w m s))
               (snd (V2.send_current_weather
                       w m (snd (V2.process_language_selection w m s)))))
   = [V2.weather_url w city lang])
  /\ In (V2.weather_url w city lang)
        (urls (since (snd (V2.process_language_selection w m s))
                     (snd (V2.send_updates_to_all_users
                             w (snd (V2.process_language_selection w m s)))))).
Proof.
  intros T L U C.
  pose proof (language_selection_users w m choice lang info s T L U) as E.
  set (s1 := snd (V2.process_language_selection w m s)) in *.
  assert (G : users_get (chat_id_of m) (users s1)
              = Some (info_set "language" lang info))
    by (rewrite E; apply users_get_set_same).
  assert (Gl : info_get "language" (info_set "language" lang info) = Some lang)
    by apply dict_get_set_same, String.eqb_spec.
  assert (Gc : info_get "city" (info_set "language" lang info)
               = info_get "city" info)
    by (apply dict_get_set_other; [apply String.eqb_spec|discriminate]).
  assert (Lg : language_of (info_set "language" lang info) = lang).
  { unfold language_of, info_get_default. now rewrite Gl. }
  split.
  - intros A.
    rewrite (urls_send_current_weather w m s1), G, Gc, C, A, Lg.
    reflexivity.
  - destruct (v2_broadcast_since w s1) as (_ & R & _).
    rewrite R. apply in_flat_map.
    exists (chat_id_of m, info_set "language" lang info). split.
    + apply (dict_get_in _ _ Z.eqb Z.eqb_spec), G.
    + unfold fetch_of. cbn [snd]. rewrite Gc, C, Lg. now left.
Qed.

Lemma language_takes_effect_witness :
  In (V2.weather_url Sample.fine "Berlin" "en")
     (urls (since (snd (V2.process_language_selection
                          Sample.fine (Sample.msg 2 "English")
                          (Sample.subscribed Sample.three_cities_ru)))
                  (snd (V2.send_updates_to_all_users
                          Sample.fine
                          (snd (V2.process_language_selection
                                  Sample.fine (Sample.msg 2 "English")
                                  (Sample.subscribed Sample.three_cities_ru))))))).
Proof.
  exact (proj2 (language_takes_effect
                  Sample.fine (Sample.msg 2 "English") "English" "en" "Berlin"
                  [("city", "Berlin"); ("language", "ru")]
                  (Sample.subscribed Sample.three_cities_ru)
                  eq_refl eq_refl eq_refl eq_refl)).
Defined.

(** ** The shape of the store is kept *)

Lemma store_ok_set ok k v u :
  store_ok ok u -> ok v -> store_ok ok (users_set k v u).
Proof.
  intros [N F] Ok. split.
  - apply (dict_set_nodup _ _ Z.eqb Z.eqb_spec), N.
  - apply (dict_set_forall _ _ Z.eqb); assumption.
Qed.

Lemma store_ok_del ok k u : store_ok ok u -> store_ok ok (users_del k u).
Proof.
  intros [N F]. split.
  - apply (dict_del_nodup _ _ Z.eqb), N.
  - apply (dict_del_forall _ _ Z.eqb), F.
Qed.

Lemma store_ok_get ok k info u :
  store_ok ok u -> users_get k u = Some info -> ok info.
Proof.
  intros [_ F] G. apply (dict_get_in _ _ Z.eqb Z.eqb_spec) in G.
  apply (proj1 (Forall_forall _ u) F (k, info) G).
Qed.

Lemma record_ok_set_language lang info :
  record_ok info -> lang = "ru" \/ lang = "en" ->
  record_ok (info_set "language" lang info).
Proof.
  intros (city & l0 & -> & _) L. exists city, lang. split; [reflexivity|exact L].
Qed.

Lemma keeps_bind ok (a b : M unit) :
  keeps ok a -> keeps ok b -> keeps ok (bind a (fun _ => b)).
Proof.
  intros Ka Kb s S. unfold bind. specialize (Ka s S).
  destruct (a s) as [[[]|e] s']; cbn [snd] in *; auto.
Qed.

Lemma keeps_same ok (h : M unit) :
  (forall s, users (snd (h s)) = users s) -> keeps ok h.
Proof. intros E s S. now rewrite E. Qed.

Lemma keeps_ret ok : keeps ok (ret tt).
Proof. now apply keeps_same. Qed.

Section Keeps.
Variable w : World.

Lemma users_send_welcome m s : users (snd (V2.send_welcome w m s)) = users s.
Proof.
unfold V2.send_welcome, bind, bot_send_message, register_next_step_handler.
destruct (send_message w (tick s) (chat_id_of m) V2.welcome_text);
  [reflexivity|].
destruct (send_message w _ (chat_id_of m) _); reflexivity.
Qed.

Lemma users_change_city m s : users (snd (V2.change_city w m s)) = users s.
Proof.
unfold V2.change_city, bind, bot_send_message, register_next_step_handler.
destruct (send_message w (tick s) (chat_id_of m) _); reflexivity.
Qed.

Lemma users_change_language m s :
users (snd (V2.change_language w m s)) = users s.
Proof.
unfold V2.change_language, bind, bot_send_message,
  register_next_step_handler.
destruct (send_message w (tick s) (chat_id_of m) _); reflexivity.
Qed.

Lemma users_handle_unknown m s :
users (snd (V2.handle_unknown w m s)) = users s.
Proof. apply users_bot_send_message. Qed.

Lemma keeps_stop_updates ok m : keeps ok (V2.stop_updates w m).
Proof.
intros s S. unfold V2.stop_updates, bind, get_users, put_users.
destruct (users_mem (chat_id_of m) (users s));
  rewrite users_bot_send_message; [now apply store_ok_del|exact S].
Qed.

Lemma keeps_process_city_input m : keeps record_ok (V2.process_city_input w m).
Proof.
intros s S. destruct (text_of m) as [t|] eqn:T.
- destruct (fetch w (tick s) (PyStr.strip t) V2.DEFAULT_LANGUAGE)
    as [report|e] eqn:F.
  + rewrite (process_city_input_accepted w m t report s T F).
    apply store_ok_set; [exact S|].
    exists (PyStr.strip t), "ru". split; [reflexivity|now left].
  + rewrite (process_city_input_rejected w m t e s T F).
    now rewrite rejected_city_keeps_users.
- rewrite (process_city_input_no_text w m s T).
  now rewrite users_bot_send_message.
Qed.

Lemma keeps_process_language_selection m :
keeps record_ok (V2.process_language_selection w m).
Proof.
intros s S. destruct (text_of m) as [choice|] eqn:T.
- rewrite (process_language_selection_eq w m choice s T).
  destruct (info_get (PyStr.lower choice) V2.lang_map) as [lang|] eqn:L.
  + pose proof (lang_map_values _ _ L) as Lv.
    destruct (users_get (chat_id_of m) (users s)) as [info|] eqn:U;
      rewrite users_bot_send_message; apply store_ok_set; auto.
    * apply record_ok_set_language; [|exact Lv].
      exact (store_ok_get _ _ _ _ S U).
    * exists "", lang. split; [reflexivity|exact Lv].
  + now rewrite users_bot_send_message.
- unfold V2.process_language_selection, bind, lift, text_method.
  now rewrite T.
Qed.

Lemma keeps_run_callbacks fs m : keeps record_ok (V2.run_callbacks w fs m).
Proof.
induction fs as [|f fs IH]; cbn [V2.run_callbacks].
- apply keeps_ret.
- apply keeps_bind; [|exact IH].
  destruct f; cbn [V2.run_callback].
  + apply keeps_ret.
  + apply keeps_process_city_input.
  + apply keeps_process_language_selection.
Qed.

Lemma keeps_route m : keeps record_ok (V2.route w m).
Proof.
unfold V2.route.
destruct (command_in m ["start"; "help"]);
  [apply keeps_same, users_send_welcome|].
destruct (command_in m ["stop"]); [apply keeps_stop_updates|].
destruct (command_in m ["now"]);
  [apply keeps_same; intros s; apply (users_send_current_weather w m s)|].
destruct (command_in m ["change"]); [apply keeps_same, users_change_city|].
destruct (command_in m ["language"]);
  [apply keeps_same, users_change_language|].
destruct (text_of m); [apply keeps_same, users_handle_unknown|apply keeps_ret].
Qed.

Lemma keeps_process_new_message m :
keeps record_ok (V2.process_new_message w m).
Proof.
intros s S. unfold V2.process_new_message.
destruct (next_get (chat_id_of m) (next_step s)) as [[|f fs]|].
- now apply (keeps_route m (with_next _ s)).
- now apply (keeps_run_callbacks (f :: fs) m (with_next _ s)).
- now apply keeps_route.
Qed.

(** resultv1.py *)
Lemma keeps_v1_process_new_message m :
keeps record_ok_v1 (V1.process_new_message w m).
Proof.
assert (Kc : keeps record_ok_v1 (V1.get_city w m)).
{ intros s S.
  unfold V1.get_city, bind, lift, text_method, bot_send_message, get_users,
    put_users.
  destruct (text_of m) as [t|]; [|exact S].
  destruct (send_message w (tick s) (chat_id_of m) _); [exact S|].
  cbn [snd users with_users record]. apply store_ok_set; [exact S|].
  now exists (PyStr.strip t). }
assert (Kr : keeps record_ok_v1 (V1.route w m)).
{ unfold V1.route.
  destruct (command_in m ["start"]).
  - apply keeps_same. intros s.
    unfold V1.start, bind, bot_send_message, register_next_step_handler.
    destruct (send_message w (tick s) (chat_id_of m) V1.commands_message);
      [reflexivity|].
    destruct (send_message w _ (chat_id_of m) _); reflexivity.
  - destruct (command_in m ["stop"]); [|apply keeps_ret].
    intros s S. unfold V1.stop, bind, get_users, put_users.
    destruct (users_mem (chat_id_of m) (users s));
      rewrite users_bot_send_message; [now apply store_ok_del|exact S]. }
assert (Kcs : forall fs, keeps record_ok_v1 (V1.run_callbacks w fs m)).
{ induction fs as [|f fs IH]; cbn [V1.run_callbacks].
  - apply keeps_ret.
  - apply keeps_bind; [|exact IH].
    destruct f; cbn [V1.run_callback]; auto using keeps_ret. }
intros s S. unfold V1.process_new_message.
destruct (next_get (chat_id_of m) (next_step s)) as [[|f fs]|].
- now apply (Kr (with_next _ s)).
- now apply (Kcs (f :: fs) (with_next _ s)).
- now apply Kr.
Qed.
End Keeps.

Lemma fetch_of_ok w u :
  Forall (fun p => record_ok (snd p)) u ->
  List.length (flat_map (fetch_of w) u) = List.length u.
Proof.
  induction 1 as [|[chat info] u R F IH]; [reflexivity|].
  cbn [snd] in R. destruct R as (city & lang & -> & _).
  cbn [flat_map]. rewrite length_app, IH. reflexivity.
Qed.

(** X11.  Every message the bot handles keeps the store in shape: no chat
    has two records, and every record is exactly a city and a language that
    is "ru" or "en" (in resultv1.py: exactly a city).  On such a store a
    broadcast of resultv2.py changes nothing and makes one request for each
    subscriber: its [KeyError] path is never taken. *)
Theorem store_shape_kept (w : World) (m : message) (s : state) :
  (store_ok record_ok (users s) ->
   store_ok record_ok (users (snd (V2.process_new_message w m s)))
   /\ users (snd (V2.send_updates_to_all_users w s)) = users s
   /\ List.length
        (urls (since s (snd (V2.send_updates_to_all_users w s))))
      = List.length (users s))
  /\
  (store_ok record_ok_v1 (users s) ->
   store_ok record_ok_v1 (users (snd (V1.process_new_message w m s)))).
Proof.
  split.
  - intros S. split; [now apply keeps_process_new_message|].
    destruct (v2_broadcast_since w s) as (U & R & _).
    split; [exact U|]. rewrite R. apply fetch_of_ok. apply S.
  - apply keeps_v1_process_new_message.
Qed.

Lemma store_shape_kept_witness :
  (let s := Sample.asked_city cb_process_city_input 7 Sample.three_cities_ru in
   let s' := snd (V2.process_new_message Sample.fine (Sample.msg 7 " Oslo ") s) in
   users s'
   = (Sample.three_cities_ru ++ [(7%Z, [("city", "Oslo"); ("language", "ru")])])%list
   /\ store_ok record_ok (users s'))
  /\
  (let s := Sample.asked_city cb_process_language_selection 2
                             Sample.three_cities_ru in
   let s' := snd (V2.process_new_message Sample.fine (Sample.msg 2 "English") s) in
   users_get 2 (users s') = Some [("city", "Berlin"); ("language", "en")]
   /\ store_ok record_ok (users s')
   /\ List.length
        (urls (since s' (snd (V2.send_updates_to_all_users Sample.fine s'))))
      = 3%nat).
Proof.
  assert (S : store_ok record_ok Sample.three_cities_ru).
  { split.
    - cbn. repeat constructor; cbn; intuition discriminate.
    - repeat constructor; cbn; eexists _, _; (split; [reflexivity|now left]). }
  split.
  - split; [reflexivity|].
    exact (proj1 (proj1 (store_shape_kept
                           Sample.fine (Sample.msg 7 " Oslo ")
                           (Sample.asked_city cb_process_city_input 7
                                              Sample.three_cities_ru)) S)).
  - pose proof (proj1 (proj1 (store_shape_kept
                           Sample.fine (Sample.msg 2 "English")
                           (Sample.asked_city cb_process_language_selection 2
                                              Sample.three_cities_ru)) S)) as S'.
    split; [reflexivity|]. split; [exact S'|].
    exact (proj2 (proj2 (proj1 (store_shape_kept
                                  Sample.fine (Sample.msg 2 "English")
                                  (snd (V2.process_new_message
                                          Sample.fine (Sample.msg 2 "English")
                                          (Sample.asked_city
                                             cb_process_language_selection 2
                                             Sample.three_cities_ru)))) S'))).
Defined.

(** ** Who a broadcast writes to *)

Lemma subseq_refl {A} (l : list A) : subseq l l.
Proof. induction l; [apply subseq_nil|now apply subseq_take]. Qed.

Lemma subseq_nil_l {A} (l : list A) : subseq [] l.
Proof. induction l; [apply subseq_nil|now apply subseq_skip]. Qed.

Lemma subseq_In {A} (l l' : list A) x : subseq l l' -> In x l -> In x l'.
Proof.
  induction 1 as [|y l l' S IH|y l l' S IH]; simpl; auto.
  intros [->|I]; auto.
Qed.

Lemma subseq_length {A} (l l' : list A) :
  subseq l l' -> (List.length l <= List.length l')%nat.
Proof. induction 1; simpl; lia. Qed.

Lemma subseq_NoDup {A} (l l' : list A) : subseq l l' -> NoDup l' -> NoDup l.
Proof.
  induction 1 as [|y l l' S IH|y l l' S IH]; intros N; auto.
  - inversion N; auto.
  - inversion N as [|? ? Ny N']; subst. constructor; auto.
    intros I. apply Ny. now apply (subseq_In l l').
Qed.

Lemma for_each_user_sent w items : forall s,
  exists evs,
    V2.for_each_user w items s = (Ok tt, extend evs s)
    /\ subseq (sent_to evs) (map fst items).
Proof.
  induction items as [|[chat info] rest IH]; intros s.
  - exists []. rewrite extend_nil. split; [reflexivity|constructor].
  - cbn [V2.for_each_user]. unfold bind.
    destruct (update_one_run w chat info s) as (e1 & E1 & _ & S1 & _).
    rewrite E1. destruct (IH (extend e1 s)) as (e2 & E2 & S2).
    rewrite E2. norm. exists (e1 ++ e2)%list. split; [reflexivity|].
    rewrite sent_to_app, S1. cbn [map fst].
    destruct (info_get "city" info) as [city|]; [|now apply subseq_skip].
    destruct (answers _); [now apply subseq_take|now apply subseq_skip].
Qed.

Lemma v2_broadcast_sent w s :
  subseq (sent_to (since s (snd (V2.send_updates_to_all_users w s))))
         (map fst (users s)).
Proof.
  unfold V2.send_updates_to_all_users, bind, logger_info, get_users.
  cbn [users record].
  destruct (for_each_user_sent w (users s) (record (Log INFO
              "Starting scheduled weather updates...") s)) as (evs & E & S).
  rewrite E. norm. cbn [snd]. rewrite since_extend.
  change (sent_to (Log INFO "Starting scheduled weather updates..."
                     :: (evs ++ [Log INFO "Scheduled updates completed"])%list))
    with (sent_to (evs ++ [Log INFO "Scheduled updates completed"])%list).
  rewrite sent_to_app. simpl. now rewrite app_nil_r.
Qed.

Lemma v1_fetch_sent w t city : sent_to (snd (v1_fetch w t city)) = [].
Proof.
  unfold v1_fetch. cbv zeta.
  destruct (requests_get w t (V1.weather_url city)) as [data|e];
    [|reflexivity].
  destruct (v1_read data) as [[[temperature description]|]|e]; reflexivity.
Qed.

Lemma v1_update_sent w t chat city :
  match fst (v1_update w t chat city) with
  | Ok _ => sent_to (snd (v1_update w t chat city)) = [chat]
  | Raise _ =>
    sent_to (snd (v1_update w t chat city)) = []
    \/ sent_to (snd (v1_update w t chat city)) = [chat]
  end.
Proof.
  unfold v1_update. pose proof (v1_fetch_sent w t city) as F.
  destruct (v1_fetch w t city) as [[weather|e] evs]; cbn [fst snd] in *.
  - destruct (send_message w _ chat weather); cbn [fst snd];
      rewrite sent_to_app, F; auto.
  - now left.
Qed.

(** The loop of resultv1.py serves the subscribers in the order of [users]
    and stops at the first failure: the chats it wrote to are the first
    ones, all of them when it returns. *)
Lemma v1_loop_sent w items : forall t,
  exists rest,
    map fst items = (sent_to (snd (v1_loop w t items)) ++ rest)%list
    /\ (fst (v1_loop w t items) = Ok tt -> rest = []).
Proof.
  induction items as [|[chat info] items IH]; intros t; cbn [v1_loop].
  - exists []. split; reflexivity.
  - destruct (info_get "city" info) as [city|].
    + pose proof (v1_update_sent w t chat city) as U.
      destruct (v1_update w t chat city) as [[[]|e] evs]; cbn [fst snd] in U.
      * destruct (IH (t + List.length evs)%nat) as (rest & E & R).
        destruct (v1_loop w (t + List.length evs) items) as [r evs'].
        cbn [fst snd] in *. exists rest. rewrite sent_to_app, U.
        cbn [map fst]. simpl. now rewrite E.
      * cbn [fst snd map]. destruct U as [-> | ->].
        -- exists (chat :: map fst items). split; [reflexivity|discriminate].
        -- exists (map fst items). split; [reflexivity|discriminate].
    + cbn [fst snd map]. exists (chat :: map fst items).
      split; [reflexivity|discriminate].
Qed.

(** X12.  Who a broadcast writes to.  resultv2.py: the chats
    [bot.send_message] is called for during a broadcast are subscribers, in
    the order of [users], each at most once; whatever the provider and the
    transport do, no chat is written to twice and none that is not in
    [users].  resultv1.py: the chats written to are the first subscribers in
    the order of [users], and all of them when the broadcast returns. *)
Theorem broadcast_order (w : World) (s : state) :
  subseq (sent_to (since s (snd (V2.send_updates_to_all_users w s))))
         (map fst (users s))
  /\ (delivery_attempts s (snd (V2.send_updates_to_all_users w s))
      <= List.length (users s))%nat
  /\ (exists rest,
         map fst (users s)
         = (sent_to (since s (snd (V1.send_updates_to_all_users w s)))
              ++ rest)%list
         /\ (fst (V1.send_updates_to_all_users w s) = Ok tt -> rest = [])).
Proof.
  split; [apply v2_broadcast_sent|split].
  - unfold delivery_attempts.
    rewrite <- (length_map fst (users s)).
    apply subseq_length, v2_broadcast_sent.
  - rewrite v1_broadcast_since. cbn [fst snd]. rewrite since_extend.
    apply v1_loop_sent.
Qed.

Lemma not_in_keys_after_del chat (u : users_t) :
  ~ In chat (map fst (users_del chat u)).
Proof.
  apply (dict_get_none _ _ Z.eqb Z.eqb_spec). apply users_get_del_same.
Qed.

Lemma users_stop_updates w m s :
  users (snd (V2.stop_updates w m s))
  = if users_mem (chat_id_of m) (users s)
    then users_del (chat_id_of m) (users s) else users s.
Proof.
  unfold V2.stop_updates, bind, get_users, put_users.
  destruct (users_mem (chat_id_of m) (users s));
    now rewrite users_bot_send_message.
Qed.

Lemma users_v1_stop w m s :
  users (snd (V1.stop w m s))
  = if users_mem (chat_id_of m) (users s)
    then users_del (chat_id_of m) (users s) else users s.
Proof.
  unfold V1.stop, bind, get_users, put_users.
  destruct (users_mem (chat_id_of m) (users s));
    now rewrite users_bot_send_message.
Qed.

Lemma not_in_keys_after_stop chat (u : users_t) :
  ~ In chat (map fst (if users_mem chat u then users_del chat u else u)).
Proof.
  destruct (users_mem chat u) eqn:M; [apply not_in_keys_after_del|].
  apply (dict_get_none _ _ Z.eqb Z.eqb_spec).
  unfold users_mem, Dict.mem in M. fold (users_get chat u) in M.
  unfold users_get in M. now destruct (Dict.get Z.eqb chat u).
Qed.

Lemma users_get_after_stop chat chat' (u : users_t) :
  chat <> chat' ->
  users_get chat' (if users_mem chat u then users_del chat u else u)
  = users_get chat' u.
Proof.
  intros D. destruct (users_mem chat u); [|reflexivity].
  now apply users_get_del_other.
Qed.

(** X13.  [/stop] from a chat with nothing pending: the broadcast that
    follows does not call [bot.send_message] for that chat, whether it had a
    record or not and whatever the transport did with the confirmation,
    while every other chat keeps the record it had.  In resultv1.py, too,
    the chat is not written to by the next broadcast. *)
Theorem stopped_chat_is_skipped (w : World) (m : message) (s : state) :
  text_of m = Some "/stop" ->
  next_get (chat_id_of m) (next_step s) = None ->
  (let s1 := snd (V2.process_new_message w m s) in
   ~ In (chat_id_of m)
        (sent_to (since s1 (snd (V2.send_updates_to_all_users w s1))))
   /\ forall chat, chat <> chat_id_of m ->
                   users_get chat (users s1) = users_get chat (users s))
  /\
  (let s1 := snd (V1.process_new_message w m s) in
   ~ In (chat_id_of m)
        (sent_to (since s1 (snd (V1.send_updates_to_all_users w s1))))
   /\ forall chat, chat <> chat_id_of m ->
                   users_get chat (users s1) = users_get chat (users s)).
Proof.
  intros T N. split.
  - assert (E : V2.process_new_message w m s = V2.stop_updates w m s).
    { unfold V2.process_new_message. rewrite N. unfold V2.route, command_in.
      rewrite T. reflexivity. }
    rewrite E. cbv zeta. split.
    + intros I. apply (subseq_In _ _ _ (v2_broadcast_sent w _)) in I.
      rewrite users_stop_updates in I.
      exact (not_in_keys_after_stop _ _ I).
    + intros chat D. rewrite users_stop_updates.
      apply users_get_after_stop. congruence.
  - assert (E : V1.process_new_message w m s = V1.stop w m s).
    { unfold V1.process_new_message. rewrite N. unfold V1.route, command_in.
      rewrite T. reflexivity. }
    rewrite E. cbv zeta. split.
    + intros I.
      destruct (v1_loop_sent w (users (snd (V1.stop w m s)))
                             (tick (snd (V1.stop w m s)))) as (rest & K & _).
      rewrite v1_broadcast_since in I. cbn [snd] in I.
      rewrite since_extend in I.
      assert (I' : In (chat_id_of m) (map fst (users (snd (V1.stop w m s)))))
        by (rewrite K; apply in_or_app; now left).
      rewrite users_v1_stop in I'.
      exact (not_in_keys_after_stop _ _ I').
    + intros chat D. rewrite users_v1_stop.
      apply users_get_after_stop. congruence.
Qed.

Lemma stopped_chat_is_skipped_witness :
  let s1 := snd (V2.process_new_message
                   Sample.fine (Sample.msg 2 "/stop")
                   (Sample.subscribed Sample.three_cities_ru)) in
  ~ In 2%Z (sent_to (since s1 (snd (V2.send_updates_to_all_users
                                      Sample.fine s1)))).
Proof.
  exact (proj1 (proj1 (stopped_chat_is_skipped
                         Sample.fine (Sample.msg 2 "/stop")
                         (Sample.subscribed Sample.three_cities_ru)
                         eq_refl eq_refl))).
Defined.

(** ** What a handler does first *)

Lemma grows_ret {A} (a : A) : grows (ret a).
Proof. intros s. exists []. cbn. now rewrite app_nil_r. Qed.

Lemma grows_lift {A} (r : result A) : grows (lift r).
Proof. intros s. exists []. cbn. now rewrite app_nil_r. Qed.

Lemma grows_bind {A B} (a : M A) (f : A -> M B) :
  grows a -> (forall x, grows (f x)) -> grows (bind a f).
Proof.
  intros Ga Gf s. unfold bind. destruct (Ga s) as (e1 & E1).
  destruct (a s) as [[x|e] s']; cbn [snd] in *.
  - destruct (Gf x s') as (e2 & E2). exists (e1 ++ e2)%list.
    now rewrite E2, E1, app_assoc.
  - now exists e1.
Qed.

Lemma grows_try_except {A} (body : M A) (handler : exn -> M A) :
  grows body -> (forall e, grows (handler e)) -> grows (try_except body handler).
Proof.
  intros Gb Gh s. unfold try_except. destruct (Gb s) as (e1 & E1).
  destruct (body s) as [[x|e] s']; cbn [snd] in *.
  - now exists e1.
  - destruct (Gh e s') as (e2 & E2). exists (e1 ++ e2)%list.
    now rewrite E2, E1, app_assoc.
Qed.

Lemma grows_send w chat text mk : grows (bot_send_message w chat text mk).
Proof.
  intros s. unfold bot_send_message.
  destruct (send_message w (tick s) chat text); eexists; reflexivity.
Qed.

Lemma grows_log_error text : grows (logger_error text).
Proof. intros s. eexists; reflexivity. Qed.

Lemma grows_register chat f : grows (register_next_step_handler chat f).
Proof. intros s. exists []. cbn. now rewrite app_nil_r. Qed.

Lemma grows_send_weather_update w chat city language :
  grows (V2.send_weather_update w chat city language).
Proof.
  intros s.
  destruct (send_weather_update_run w chat city language s) as (r & evs & E & _).
  rewrite E. now exists evs.
Qed.

Lemma answered_send w chat text mk :
  answered chat (bot_send_message w chat text mk).
Proof.
  intros s. unfold bot_send_message.
  destruct (send_message w (tick s) chat text); do 3 eexists; exists [];
    reflexivity.
Qed.

Lemma answered_bind {A} chat (a : M A) (f : A -> M unit) :
  (forall s, exists text mk d rest,
        trace (snd (a s)) = (trace s ++ Send chat text mk d :: rest)%list) ->
  (forall x, grows (f x)) -> answered chat (bind a f).
Proof.
  intros Aa Gf s. unfold bind. destruct (Aa s) as (t & mk & d & rest & E1).
  destruct (a s) as [[x|e] s']; cbn [snd] in *.
  - destruct (Gf x s') as (e2 & E2). exists t, mk, d, (rest ++ e2)%list.
    rewrite E2, E1, <- app_assoc. reflexivity.
  - now exists t, mk, d, rest.
Qed.

Lemma answered_try_except chat (body : M unit) (handler : exn -> M unit) :
  answered chat body -> (forall e, grows (handler e)) ->
  answered chat (try_except body handler).
Proof.
  intros Ab Gh s. unfold try_except. destruct (Ab s) as (t & mk & d & rest & E1).
  destruct (body s) as [[x|e] s']; cbn [snd] in *.
  - now exists t, mk, d, rest.
  - destruct (Gh e s') as (e2 & E2). exists t, mk, d, (rest ++ e2)%list.
    rewrite E2, E1, <- app_assoc. reflexivity.
Qed.

Lemma answered_stop_updates w m : answered (chat_id_of m) (V2.stop_updates w m).
Proof.
  intros s. unfold V2.stop_updates, bind, get_users, put_users.
  destruct (users_mem (chat_id_of m) (users s)).
  - exact (answered_send w (chat_id_of m) _ _
                         (with_users (users_del (chat_id_of m) (users s)) s)).
  - exact (answered_send w (chat_id_of m) _ _ s).
Qed.

Lemma answered_send_current_weather w m :
  answered (chat_id_of m) (V2.send_current_weather w m).
Proof.
  intros s. unfold V2.send_current_weather, bind at 1, get_users.
  destruct (users_get (chat_id_of m) (users s)) as [info|].
  - apply answered_try_except.
    + apply answered_bind; [apply answered_send|].
      intros _. apply grows_bind; [apply grows_lift|].
      intros city. apply grows_send_weather_update.
    + intros e. apply grows_bind; [apply grows_log_error|].
      intros _. apply grows_send.
  - apply answered_send.
Qed.

Lemma answered_route w m t :
  text_of m = Some t -> answered (chat_id_of m) (V2.route w m).
Proof.
  intros T. unfold V2.route.
  destruct (command_in m ["start"; "help"]).
  { apply answered_bind; [apply answered_send|].
    intros _. apply grows_bind; [apply grows_send|].
    intros _. apply grows_register. }
  destruct (command_in m ["stop"]); [apply answered_stop_updates|].
  destruct (command_in m ["now"]); [apply answered_send_current_weather|].
  destruct (command_in m ["change"]).
  { apply answered_bind; [apply answered_send|].
    intros _. apply grows_register. }
  destruct (command_in m ["language"]).
  { apply answered_bind; [apply answered_send|].
    intros _. apply grows_register. }
  rewrite T. apply answered_send.
Qed.

(** X14.  What a handler does first.  resultv2.py: whatever text a chat
    with nothing pending sends, a command or not, the first thing the bot
    does is to call [bot.send_message] for that chat; no text goes
    unanswered unless the transport fails.  resultv1.py has no catch-all
    handler: a text that is neither [/start] nor [/stop] from such a chat
    does nothing at all. *)
Theorem every_text_is_answered (w : World) (m : message) (t : string)
        (s : state) :
  text_of m = Some t ->
  next_get (chat_id_of m) (next_step s) = None ->
  (exists text reply_markup delivered rest,
      since s (snd (V2.process_new_message w m s))
      = Send (chat_id_of m) text reply_markup delivered :: rest)
  /\ (command_in m ["start"; "stop"] = false ->
      V1.process_new_message w m s = (Ok tt, s)).
Proof.
  intros T N. split.
  - unfold V2.process_new_message. rewrite N.
    destruct (answered_route w m t T s) as (text & mk & d & rest & E).
    exists text, mk, d, rest. now apply since_trace.
  - intros C. unfold V1.process_new_message. rewrite N.
    unfold V1.route. unfold command_in in *. rewrite T in *.
    destruct (extract_command t) as [c|]; [|reflexivity].
    cbn [existsb] in *.
    destruct (String.eqb c "start"); [discriminate|].
    cbn [orb] in *. now rewrite C.
Qed.

Lemma every_text_is_answered_witness :
  (exists text reply_markup delivered rest,
      since Sample.empty
            (snd (V2.process_new_message Sample.fine (Sample.msg 7 "Paris")
                                         Sample.empty))
      = Send 7 text reply_markup delivered :: rest)
  /\ V1.process_new_message Sample.fine (Sample.msg 7 "Paris") Sample.empty
     = (Ok tt, Sample.empty).
Proof.
  destruct (every_text_is_answered Sample.fine (Sample.msg 7 "Paris") "Paris"
                                   Sample.empty eq_refl eq_refl) as [A B].
  split; [exact A|exact (B eq_refl)].
Defined.

(** ** The prompts *)

Lemma state_after_register chat f s :
  next_get chat (next_step s) = None ->
  conversation_state (snd (register_next_step_handler chat f s)) chat
  = match f with
    | cb_process_language_selection => AwaitingLanguage
    | _ => AwaitingCity
    end.
Proof.
  intros N. rewrite (register_fresh chat f s N). cbn [snd].
  unfold conversation_state. cbn [next_step with_next].
  rewrite next_get_set_same. now destruct f.
Qed.

Lemma state_after_refusal chat text mk d s :
  next_get chat (next_step s) = None ->
  conversation_state (record (Send chat text mk d) s) chat = Idle.
Proof. intros N. unfold conversation_state. cbn [next_step record]. now rewrite N. Qed.

(** After one prompt: the handler is registered when the transport took the
    prompt, and only then. *)
Lemma state_after_prompt w chat text mk f s :
  next_get chat (next_step s) = None ->
  conversation_state
    (snd ((bot_send_message w chat text mk ;;;
           register_next_step_handler chat f) s)) chat
  = match send_message w (tick s) chat text with
    | None => match f with
              | cb_process_language_selection => AwaitingLanguage
              | _ => AwaitingCity
              end
    | Some _ => Idle
    end.
Proof.
  intros N. unfold bind, bot_send_message.
  destruct (send_message w (tick s) chat text).
  - now apply state_after_refusal.
  - now apply state_after_register.
Qed.

(** After two prompts. *)
Lemma state_after_prompts w chat text text' f s :
  next_get chat (next_step s) = None ->
  conversation_state
    (snd ((bot_send_message w chat text None ;;;
           bot_send_message w chat text' None ;;;
           register_next_step_handler chat f) s)) chat
  = match send_message w (tick s) chat text,
          send_message w (S (tick s)) chat text' with
    | None, None => match f with
                    | cb_process_language_selection => AwaitingLanguage
                    | _ => AwaitingCity
                    end
    | _, _ => Idle
    end.
Proof.
  intros N. unfold bind at 1. unfold bot_send_message at 1.
  destruct (send_message w (tick s) chat text).
  - now apply state_after_refusal.
  - cbv beta.
    rewrite (state_after_prompt w chat text' None f
                                (record (Send chat text None true) s) N),
      tick_record.
    reflexivity.
Qed.

(** X15.  The prompts.  A handler that asks a question ([/start], [/help],
    [/change], [/language]; [/start] in resultv1.py) registers the handler
    of the answer only after every one of its messages was taken by the
    transport: the chat, which had nothing pending, is then waiting for the
    answer, and is left Idle when a message was refused, so that the answer
    of the user is then read as a command.  None of these handlers touches
    [users] or asks the provider. *)
Theorem prompts_register (w : World) (m : message) (s : state) :
  next_get (chat_id_of m) (next_step s) = None ->
  let chat := chat_id_of m in
  let sent t text := send_message w t chat text in
  conversation_state (snd (V2.send_welcome w m s)) chat
  = match sent (tick s) V2.welcome_text,
          sent (S (tick s)) "В каком городе ты хочешь получать погоду?" with
    | None, None => AwaitingCity
    | _, _ => Idle
    end
  /\ conversation_state (snd (V2.change_city w m s)) chat
     = match sent (tick s) "Введите новый город для получения погоды:" with
       | None => AwaitingCity
       | Some _ => Idle
       end
  /\ conversation_state (snd (V2.change_language w m s)) chat
     = match sent (tick s) "Выберите язык для описания погоды:" with
       | None => AwaitingLanguage
       | Some _ => Idle
       end
  /\ conversation_state (snd (V1.start w m s)) chat
     = match sent (tick s) V1.commands_message,
             sent (S (tick s)) "В каком городе ты находишься?" with
       | None, None => AwaitingCity
       | _, _ => Idle
       end
  /\ (forall h, In h [V2.send_welcome w m; V2.change_city w m;
                      V2.change_language w m; V1.start w m] ->
                users (snd (h s)) = users s
                /\ urls (since s (snd (h s))) = []).
Proof.
  intros N chat sent. subst chat sent. cbv beta.
  split; [exact (state_after_prompts w _ _ _ cb_process_city_input s N)|].
  split; [exact (state_after_prompt w _ _ _ cb_process_city_input s N)|].
  split; [exact (state_after_prompt w _ _ _ cb_process_language_selection s N)|].
  split; [exact (state_after_prompts w _ _ _ cb_get_city s N)|].
  intros h [<-|[<-|[<-|[<-|[]]]]].
  - unfold V2.send_welcome, bind, bot_send_message, register_next_step_handler.
    destruct (send_message w (tick s) (chat_id_of m) V2.welcome_text);
      [|destruct (send_message w _ (chat_id_of m) _)];
      (split; [reflexivity|]); cbn [snd]; norm;
        erewrite since_trace by reflexivity; reflexivity.
  - unfold V2.change_city, bind, bot_send_message, register_next_step_handler.
    destruct (send_message w (tick s) (chat_id_of m) _);
      (split; [reflexivity|]); cbn [snd]; norm;
        erewrite since_trace by reflexivity; reflexivity.
  - unfold V2.change_language, bind, bot_send_message,
      register_next_step_handler.
    destruct (send_message w (tick s) (chat_id_of m) _);
      (split; [reflexivity|]); cbn [snd]; norm;
        erewrite since_trace by reflexivity; reflexivity.
  - unfold V1.start, bind, bot_send_message, register_next_step_handler.
    destruct (send_message w (tick s) (chat_id_of m) V1.commands_message);
      [|destruct (send_message w _ (chat_id_of m) _)];
      (split; [reflexivity|]); cbn [snd]; norm;
        erewrite since_trace by reflexivity; reflexivity.
Qed.

Lemma prompts_register_witness :
  conversation_state
    (snd (V2.send_welcome Sample.transport_back (Sample.msg 7 "/start")
                          Sample.empty)) 7
  = Idle
  /\ conversation_state
       (snd (V2.change_language Sample.fine (Sample.msg 7 "/language")
                                Sample.empty)) 7
     = AwaitingLanguage.
Proof.
  pose proof (prompts_register Sample.transport_back (Sample.msg 7 "/start")
                               Sample.empty eq_refl) as A.
  pose proof (prompts_register Sample.fine (Sample.msg 7 "/language")
                               Sample.empty eq_refl) as B.
  split.
  - exact (proj1 A).
  - exact (proj1 (proj2 (proj2 B))).
Defined.

(** ** The schedulers *)

Lemma broadcasts_app a b :
  broadcasts (a ++ b)%list = (broadcasts a + broadcasts b)%nat.
Proof. unfold broadcasts. now rewrite filter_app, length_app. Qed.

Lemma send_weather_update_quiet w chat city language s :
  exists r evs,
    V2.send_weather_update w chat city language s = (r, extend evs s)
    /\ broadcasts evs = 0%nat.
Proof.
  rewrite send_weather_update_eq. unfold send_weather_update_nf. cbv zeta.
  destruct (fetch w (tick s) city language) as [weather|e].
  - destruct (send_message w (S (tick s)) chat weather); norm;
      do 2 eexists; split; reflexivity.
  - destruct (is_class WeatherServiceError e).
    + destruct (send_message w (S (tick s)) chat _); norm;
        do 2 eexists; split; reflexivity.
    + norm. do 2 eexists; split; reflexivity.
Qed.

Lemma update_one_quiet w chat info s :
  exists evs,
    V2.update_one w chat info s = (Ok tt, extend evs s)
    /\ broadcasts evs = 0%nat.
Proof.
  unfold V2.update_one, try_except, bind, lift, info_item.
  destruct (info_get "city" info) as [city|].
  - destruct (send_weather_update_quiet w chat city
                (info_get_default info "language" V2.DEFAULT_LANGUAGE) s)
      as (r & evs & E & Q).
    rewrite E. destruct r as [[]|e].
    + now exists evs.
    + unfold logger_error. norm. eexists. split; [reflexivity|].
      rewrite broadcasts_app, Q. reflexivity.
  - unfold logger_error. norm. eexists. split; reflexivity.
Qed.

Lemma for_each_user_quiet w items : forall s,
  exists evs,
    V2.for_each_user w items s = (Ok tt, extend evs s)
    /\ broadcasts evs = 0%nat.
Proof.
  induction items as [|[chat info] rest IH]; intros s.
  - exists []. rewrite extend_nil. split; reflexivity.
  - cbn [V2.for_each_user]. unfold bind.
    destruct (update_one_quiet w chat info s) as (e1 & E1 & Q1).
    rewrite E1. destruct (IH (extend e1 s)) as (e2 & E2 & Q2).
    rewrite E2. norm. exists (e1 ++ e2)%list. split; [reflexivity|].
    now rewrite broadcasts_app, Q1, Q2.
Qed.

(** A broadcast returns, and logs its start once. *)
Lemma v2_broadcast_once w s :
  exists evs,
    V2.send_updates_to_all_users w s = (Ok tt, extend evs s)
    /\ broadcasts evs = 1%nat.
Proof.
  unfold V2.send_updates_to_all_users, bind, logger_info, get_users.
  cbn [users record].
  destruct (for_each_user_quiet w (users s) (record (Log INFO
              "Starting scheduled weather updates...") s)) as (evs & E & Q).
  rewrite E. norm. eexists. split; [reflexivity|].
  change (Log INFO "Starting scheduled weather updates..."
            :: (evs ++ [Log INFO "Scheduled updates completed"])%list)
    with ([Log INFO "Starting scheduled weather updates..."]
            ++ evs ++ [Log INFO "Scheduled updates completed"])%list.
  rewrite !broadcasts_app, Q. reflexivity.
Qed.

(** The [except] clause of the scheduler loop is never entered. *)
Lemma scheduler_turn_eq w due s :
  V2.scheduler_turn w due s
  = if due then V2.send_updates_to_all_users w s else (Ok tt, s).
Proof.
  unfold V2.scheduler_turn, try_except. destruct due; [|reflexivity].
  destruct (v2_broadcast_once w s) as (evs & E & _). now rewrite E.
Qed.

Lemma scheduler_turns_run w dues : forall s,
  exists evs,
    V2.scheduler_turns w dues s = (Ok tt, extend evs s)
    /\ broadcasts evs = List.length (filter (fun due : bool => due) dues)
    /\ urls evs
       = List.concat (map (fun due : bool =>
                        if due then flat_map (fetch_of w) (users s) else [])
                     dues).
Proof.
  induction dues as [|due dues IH]; intros s.
  - exists []. rewrite extend_nil. repeat split; reflexivity.
  - cbn [V2.scheduler_turns]. unfold bind. rewrite scheduler_turn_eq.
    destruct due.
    + destruct (v2_broadcast_once w s) as (e1 & E1 & Q1).
      destruct (v2_broadcast_since w s) as (_ & U1 & _).
      rewrite E1 in U1 |- *. cbn [snd] in U1. rewrite since_extend in U1.
      destruct (IH (extend e1 s)) as (e2 & E2 & Q2 & U2).
      rewrite E2. norm. exists (e1 ++ e2)%list. split; [reflexivity|].
      split.
      * rewrite broadcasts_app, Q1, Q2. reflexivity.
      * rewrite urls_app, U1, U2. reflexivity.
    + destruct (IH s) as (e2 & E2 & Q2 & U2). rewrite E2.
      exists e2. repeat split; auto.
Qed.

(** X16.  The scheduler of resultv2.py never stops.  Whatever the provider
    and the transport do, and however many turns of its loop are run, with
    the job due or not: [schedule_periodic_updates] does not raise, leaves
    [users] as it is, starts one broadcast for each turn at which the job is
    due, and each of these asks the provider once for each subscriber with a
    city.  A turn is the broadcast or nothing: the [except] clause of the
    loop, with its "Scheduler error" line, is never entered. *)
Theorem scheduler_never_stops (w : World) (dues : list bool) (s : state) :
  fst (V2.schedule_periodic_updates w dues s) = Ok tt
  /\ users (snd (V2.schedule_periodic_updates w dues s)) = users s
  /\ broadcasts (since s (snd (V2.schedule_periodic_updates w dues s)))
     = List.length (filter (fun due : bool => due) dues)
  /\ urls (since s (snd (V2.schedule_periodic_updates w dues s)))
     = List.concat (map (fun due : bool =>
                      if due then flat_map (fetch_of w) (users s) else [])
                   dues)
  /\ (forall due s0,
         V2.scheduler_turn w due s0
         = if due then V2.send_updates_to_all_users w s0 else (Ok tt, s0)).
Proof.
  unfold V2.schedule_periodic_updates, bind, logger_info.
  destruct (scheduler_turns_run w dues (record (Log INFO
              ("Weather updates scheduled every "
                 ++ PyStr.of_Z V2.UPDATE_INTERVAL_MINUTES ++ " minutes")) s))
    as (evs & E & Q & U).
  rewrite E. norm. cbn [fst snd]. rewrite since_extend.
  split; [reflexivity|]. split; [reflexivity|]. split; [|split].
  - change (?e :: evs) with ([e] ++ evs)%list.
    rewrite broadcasts_app, Q. reflexivity.
  - change (?e :: evs) with ([e] ++ evs)%list.
    rewrite urls_app, U. reflexivity.
  - intros due s0. apply scheduler_turn_eq.
Qed.




(** ** Answers without text *)

(** X18.  A message without text (a photo) as the answer to a question.
    Unlike [process_city_input], the handlers [process_language_selection]
    of resultv2.py and [get_city] of resultv1.py have no [try]: the
    [AttributeError] of [message.text.lower()] or [message.text.strip()]
    leaves the handler.  Nothing is sent or logged, [users] is unchanged,
    and the handler, taken off the next steps before it ran, is not
    registered again: the chat is back to Idle. *)
Theorem answer_without_text (w : World) (m : message) (s : state) :
  text_of m = None ->
  (next_get (chat_id_of m) (next_step s) = Some [cb_process_language_selection] ->
   V2.process_new_message w m s
   = (Raise (Exn AttributeError "'NoneType' object has no attribute 'lower'"),
      with_next (next_del (chat_id_of m) (next_step s)) s)
   /\ conversation_state (snd (V2.process_new_message w m s)) (chat_id_of m)
      = Idle)
  /\
  (next_get (chat_id_of m) (next_step s) = Some [cb_get_city] ->
   V1.process_new_message w m s
   = (Raise (Exn AttributeError "'NoneType' object has no attribute 'strip'"),
      with_next (next_del (chat_id_of m) (next_step s)) s)
   /\ conversation_state (snd (V1.process_new_message w m s)) (chat_id_of m)
      = Idle).
Proof.
  intros T. split; intros N.
  - assert (E : V2.process_new_message w m s
                = (Raise (Exn AttributeError
                              "'NoneType' object has no attribute 'lower'"),
                   with_next (next_del (chat_id_of m) (next_step s)) s)).
    { unfold V2.process_new_message. rewrite N.
      cbn [V2.run_callbacks V2.run_callback].
      unfold V2.process_language_selection, bind, lift, text_method.
      now rewrite T. }
    rewrite E. split; [reflexivity|].
    unfold conversation_state. cbn [snd next_step with_next].
    now rewrite next_get_del_same.
  - assert (E : V1.process_new_message w m s
                = (Raise (Exn AttributeError
                              "'NoneType' object has no attribute 'strip'"),
                   with_next (next_del (chat_id_of m) (next_step s)) s)).
    { unfold V1.process_new_message. rewrite N.
      cbn [V1.run_callbacks V1.run_callback].
      unfold V1.get_city, bind, lift, text_method.
      now rewrite T. }
    rewrite E. split; [reflexivity|].
    unfold conversation_state. cbn [snd next_step with_next].
    now rewrite next_get_del_same.
Qed.

Lemma answer_without_text_witness :
  V1.process_new_message Sample.fine (Sample.photo 7)
                         (Sample.asked_city cb_get_city 7 Sample.three_cities)
  = (Raise (Exn AttributeError "'NoneType' object has no attribute 'strip'"),
     Sample.subscribed Sample.three_cities)
  /\ fst (V2.process_new_message
            Sample.fine (Sample.photo 7)
            (Sample.asked_city cb_process_language_selection 7 []))
     = Raise (Exn AttributeError "'NoneType' object has no attribute 'lower'").
Proof.
  split.
  - exact (proj1 (proj2 (answer_without_text
                           Sample.fine (Sample.photo 7)
                           (Sample.asked_city cb_get_city 7 Sample.three_cities)
                           eq_refl) eq_refl)).
  - exact (f_equal fst
             (proj1 (proj1 (answer_without_text
                              Sample.fine (Sample.photo 7)
                              (Sample.asked_city cb_process_language_selection
                                                 7 [])
                              eq_refl) eq_refl))).
Defined.
